(** * Liveness orchestration engine: a shallow embedding of the Flask services

    The development follows the Python sources under [FlaskApi/app/services]:

    - [camera_service.py]                (module [Camera])
    - [person_verification_service.py]   (module [PersonVerification])
    - [midas_liveness_service.py]        (module [Midas])
    - [blink_detection_service.py]       (module [Blink])
    - [mouth_captcha_service.py]         (module [MouthCaptcha])
    - [liveness_service.py]              (modules [Entry], [Results],
                                          [Liveness])

    and, for the motion score only, [FlaskApi/legacy/midas_liveness.py]
    (module [Legacy]).

    Python floats are idealised as exact rationals ([Q]); equalities between
    computed confidences are therefore stated with [==].  What the capture
    device and the perception libraries (InsightFace, MiDaS, MediaPipe, dlib,
    Vosk, word2number, numpy's [std]) deliver is not computed here: it enters
    every step as an observation, one per loop iteration, and the decision
    logic of the services is run on these observations.  The depth and pose
    check is the exception: its loop raises on the first frame delivered
    ([Midas.loop]), so its vote and its final decision are modelled as the
    code writes them but no run reaches them. *)

From Stdlib Require Import QArith Qminmax Lqa List String Ascii ZArith Lia Bool.
From Stdlib Require Import DecimalString.
Import ListNotations.

Local Open Scope Q_scope.

(** ** Numbers *)

(** [a < b] on floats, as a boolean. *)
Definition Qltb (a b : Q) : bool := negb (Qle_bool b a).

(** Python's [min(a, b)]: the first argument unless the second is smaller. *)
Definition py_min (a b : Q) : Q := if Qltb b a then b else a.

(** Python's [max(a, b)]: the first argument unless the second is larger. *)
Definition py_max (a b : Q) : Q := if Qltb a b then b else a.

(** [sum(l)] for a list of floats. *)
Definition Qsum (l : list Q) : Q := fold_right Qplus 0 l.

(** [len(l)] as a float. *)
Definition Qlen {A : Type} (l : list A) : Q := inject_Z (Z.of_nat (List.length l)).

(** [np.mean(l)]; the callers guard the empty list. *)
Definition np_mean (l : list Q) : Q := Qsum l / Qlen l.

(** [np.var(l)], the population variance. *)
Definition np_var (l : list Q) : Q :=
  let m := np_mean l in np_mean (map (fun x => (x - m) * (x - m)) l).

(** Number of [True] entries of a list of booleans, [sum(votes)]. *)
Definition count_true (l : list bool) : nat := List.length (filter (fun b => b) l).

(** ** Strings *)

Local Open Scope string_scope.

(** [str(n)] for a Python integer. *)
Definition py_str (n : Z) : string := NilZero.string_of_int (Z.to_int n).

Definition is_digit (c : ascii) : bool :=
  let n := nat_of_ascii c in (48 <=? n)%nat && (n <=? 57)%nat.

(** ASCII white space, the separators of [str.split()]. *)
Definition is_space (c : ascii) : bool :=
  let n := nat_of_ascii c in
  ((9 <=? n)%nat && (n <=? 13)%nat) || (n =? 32)%nat || ((28 <=? n)%nat && (n <=? 31)%nat).

(** [s.isdigit()] on ASCII text: non-empty and made of digits only. *)
Definition isdigit (s : string) : bool :=
  match s with
  | EmptyString => false
  | _ => forallb is_digit (list_ascii_of_string s)
  end.

(** [s.split()]: the maximal runs of non-space characters.  [cur] holds the
    current run, reversed. *)
Fixpoint split_aux (cs : list ascii) (cur : list ascii) : list string :=
  let flush := match cur with
               | [] => []
               | _ => [string_of_list_ascii (rev cur)]
               end in
  match cs with
  | [] => flush
  | c :: cs' =>
      if is_space c then flush ++ split_aux cs' []
      else split_aux cs' (c :: cur)
  end.

Definition split (s : string) : list string :=
  split_aux (list_ascii_of_string s) [].

(** [s.replace(c, '')] for a one-character pattern. *)
Definition remove_char (c : ascii) (s : string) : string :=
  string_of_list_ascii
    (filter (fun x => negb (Ascii.eqb x c)) (list_ascii_of_string s)).

(** [s.strip()]. *)
Definition strip (s : string) : string :=
  let drop := fix drop (l : list ascii) : list ascii :=
                match l with
                | c :: l' => if is_space c then drop l' else l
                | [] => []
                end in
  string_of_list_ascii
    (rev (drop (rev (drop (list_ascii_of_string s))))).

Definition digit_value (c : ascii) : Z := Z.of_nat (nat_of_ascii c) - 48.

(** Digits with single underscores between them, as [int()] accepts them.
    [acc] is the value read so far, [after_digit] tells whether the previous
    character was a digit. *)
Fixpoint int_digits (cs : list ascii) (acc : Z) (after_digit : bool) : option Z :=
  match cs with
  | [] => if after_digit then Some acc else None
  | c :: cs' =>
      if is_digit c then int_digits cs' (10 * acc + digit_value c)%Z true
      else if Ascii.eqb c "_"%char && after_digit
           then match cs' with
                | [] => None
                | _ => int_digits cs' acc false
                end
           else None
  end.

(** [int(s)] on an ASCII token without white space; [None] stands for the
    [ValueError] Python raises. *)
Definition py_int (s : string) : option Z :=
  match list_ascii_of_string s with
  | "-"%char :: cs => option_map Z.opp (int_digits cs 0%Z false)
  | "+"%char :: cs => int_digits cs 0%Z false
  | cs => int_digits cs 0%Z false
  end.

Local Close Scope string_scope.

(** ** The capture loop shared by the step services

    Every step runs [while time.time() - start_time < duration], pulling one
    frame per iteration.  The iterations that fit into the duration budget
    are given as a list; each is one of:
    - [NoFrame]: [camera.get_frame()] returned [None], the loop continues;
    - [Frame obs key_q]: a frame whose perception results are [obs];
      [key_q] tells whether [cv2.waitKey(1)] reports the key [q];
    - [Fault e]: an exception with text [e] is raised inside the step's
      [try] block (before the loop when it comes first); the step's
      [except] clause turns it into a failed result. *)
Inductive Capture (A : Type) : Type :=
| NoFrame
| Frame (obs : A) (key_q : bool)
| Fault (e : string).
Arguments NoFrame {A}.
Arguments Frame {A} obs key_q.
Arguments Fault {A} e.

Section CaptureLoop.
Context {A S : Type}.
Variable quit_on_q : bool.
Variable body : A -> S -> S.

(** The loop: [inl st] is the state at loop exit, [inr e] an exception. *)
Fixpoint capture_loop (frames : list (Capture A)) (st : S) : S + string :=
  match frames with
  | [] => inl st
  | NoFrame :: fs => capture_loop fs st
  | Fault e :: _ => inr e
  | Frame obs q :: fs =>
      let st' := body obs st in
      if quit_on_q && q then inl st' else capture_loop fs st'
  end.

(** The observations whose loop body is executed. *)
Fixpoint processed (frames : list (Capture A)) : list A :=
  match frames with
  | [] => []
  | NoFrame :: fs => processed fs
  | Fault _ :: _ => []
  | Frame obs q :: fs =>
      if quit_on_q && q then [obs] else obs :: processed fs
  end.

(** The exception that ends the loop, if one does. *)
Fixpoint raised (frames : list (Capture A)) : option string :=
  match frames with
  | [] => None
  | NoFrame :: fs => raised fs
  | Fault e :: _ => Some e
  | Frame obs q :: fs => if quit_on_q && q then None else raised fs
  end.

End CaptureLoop.

(** ** Step results

    The dictionaries the step services return.  [success], [confidence] and
    [message] are present in every one of them; [error] only in failure
    dictionaries; the remaining keys depend on the step.  Averages that are
    only reported ([avg_ear], [avg_gaze], [avg_depth_std], [avg_reproj_err])
    are left out. *)
Module Step.

Inductive Metrics : Type :=
| NoMetrics
| PersonMetrics (frames_processed : nat) (confidence_scores : list Q)
| MidasMetrics (live_votes total_votes frames_processed : nat)
| BlinkMetrics (blinks_detected gaze_movements frames_processed : nat)
| CaptchaMetrics (question answer spoken_text : string)
                 (recognized_number : option string)
                 (mar_variation : Q) (frames_processed : nat)
| UploadMetrics (question : option string) (answer : option string)
                (spoken_text : string) (recognized_number : option string).

Record StepDict : Type := mkStepDict {
  success : bool;
  confidence : Q;
  message : string;
  error : option string;
  metrics : Metrics
}.

(** The dictionary of an [except Exception as e] clause or of a guard that
    refuses to run. *)
Definition failure (msg err : string) : StepDict :=
  {| success := false; confidence := 0; message := msg;
     error := Some err; metrics := NoMetrics |}.

End Step.

(** ** [blink_detection_service.py] *)
Module Blink.
Import Step.

Definition EYE_AR_THRESH : Q := 0.22.
Definition EYE_AR_CONSEC_FRAMES : nat := 2.

(** The pixel counts [get_gaze_ratio] takes from the thresholded eye crop. *)
Record Eye : Type := mkEye {
  left_white : nat;
  right_white : nat
}.

(** One detected face ([rect]) of a frame: the eye aspect ratios returned by
    [eye_aspect_ratio] and the white-pixel counts of both eye crops. *)
Record Face : Type := mkFace {
  left_ear : Q;
  right_ear : Q;
  eye36 : Eye;
  eye42 : Eye
}.

Definition get_gaze_ratio (e : Eye) : Q :=
  if (right_white e =? 0)%nat then 1
  else if (left_white e =? 0)%nat then 5
  else inject_Z (Z.of_nat (left_white e)) / inject_Z (Z.of_nat (right_white e)).

(** The local variables of [detect_blinks]. *)
Record State : Type := mkState {
  counter : nat;
  total_blinks : nat;
  gaze_movements : nat;
  ear_values : list Q;
  gaze_values : list Q;
  frame_count : nat
}.

Definition init : State :=
  {| counter := 0; total_blinks := 0; gaze_movements := 0;
     ear_values := []; gaze_values := []; frame_count := 0 |}.

(** The debounce counter on one EAR reading: [(counter, total_blinks)]. *)
Definition blink_update (ear : Q) (ct : nat * nat) : nat * nat :=
  let (c, t) := ct in
  if Qltb ear EYE_AR_THRESH then (S c, t)
  else ((0%nat), if (EYE_AR_CONSEC_FRAMES <=? c)%nat then S t else t).

(** The body of [for rect in rects]. *)
Definition on_face (f : Face) (st : State) : State :=
  let ear := (left_ear f + right_ear f) / 2.0 in
  let (c, t) := blink_update ear (counter st, total_blinks st) in
  let gaze_avg := (get_gaze_ratio (eye36 f) + get_gaze_ratio (eye42 f)) / 2 in
  {| counter := c;
     total_blinks := t;
     gaze_movements :=
       if Qle_bool gaze_avg 0.8 || Qle_bool 1.5 gaze_avg
       then S (gaze_movements st) else gaze_movements st;
     ear_values := ear_values st ++ [ear];
     gaze_values := gaze_values st ++ [gaze_avg];
     frame_count := frame_count st |}.

(** The body of the [while] loop for a frame with detections [rects]. *)
Definition on_frame (rects : list Face) (st : State) : State :=
  let st1 := {| counter := counter st; total_blinks := total_blinks st;
                gaze_movements := gaze_movements st;
                ear_values := ear_values st; gaze_values := gaze_values st;
                frame_count := S (frame_count st) |} in
  fold_left (fun s f => on_face f s) rects st1.

(** The blink count the debounce counter reaches on a sequence of EAR
    readings, starting from [counter = 0] and [total_blinks = 0]. *)
Definition count_blinks (ears : list Q) : nat :=
  snd (fold_left (fun ct e => blink_update e ct) ears (0%nat, 0%nat)).

Definition detect_blinks (model_loaded display : bool)
    (frames : list (Capture (list Face))) : StepDict :=
  if negb model_loaded then
    failure "Blink detection models not loaded" "Models not available"
  else
    match capture_loop display on_frame frames init with
    | inr e => failure ("Blink detection failed: " ++ e) e
    | inl st =>
        let blink_score := py_min 1.0 (inject_Z (Z.of_nat (total_blinks st)) / 2.0) in
        let gaze_score := py_min 1.0 (inject_Z (Z.of_nat (gaze_movements st)) / 3.0) in
        let ok := (1 <=? total_blinks st)%nat && (2 <=? gaze_movements st)%nat in
        {| success := ok;
           confidence := (blink_score + gaze_score) / 2.0;
           message := if ok then "Blink detection completed successfully"
                      else "Insufficient blink/gaze activity detected";
           error := None;
           metrics := BlinkMetrics (total_blinks st) (gaze_movements st)
                                   (frame_count st) |}
    end.

End Blink.

(** ** [person_verification_service.py] *)
Module PersonVerification.
Import Step.

(** One frame as [face_app.get(frame)] sees it: for every detected face the
    cosine similarity [np.dot(ref_emb, test_emb)] of its normalised embedding
    with the reference embedding. *)
Definition Faces : Type := list Q.

(** The local variables of [verify_person]. *)
Record State : Type := mkState {
  verified : bool;
  confidence_scores : list Q;
  frame_count : nat
}.

Definition init : State :=
  {| verified := false; confidence_scores := []; frame_count := 0 |}.

(** The body of the [while] loop. *)
Definition on_frame (faces : Faces) (st : State) : State :=
  match faces with
  | [] =>
      (* "No face detected" is drawn on the frame *)
      {| verified := verified st;
         confidence_scores := confidence_scores st;
         frame_count := S (frame_count st) |}
  | [similarity] =>
      {| verified := if Qltb 0.5 similarity then true else verified st;
         confidence_scores := confidence_scores st ++ [similarity];
         frame_count := S (frame_count st) |}
  | _ :: _ :: _ =>
      (* "Multiple faces detected" is drawn on the frame *)
      {| verified := verified st;
         confidence_scores := confidence_scores st;
         frame_count := S (frame_count st) |}
  end.

(** [ref_faces] is [len(self.face_app.get(reference_image))]. *)
Definition verify_person (model_loaded : bool) (ref_faces : nat)
    (display : bool) (frames : list (Capture Faces)) : StepDict :=
  if negb model_loaded then
    failure "InsightFace model not loaded" "Model not available"
  else if negb (ref_faces =? 1)%nat then
    failure "Reference image must contain exactly one face"
            "Invalid reference image"
  else
    match capture_loop display on_frame frames init with
    | inr e => failure ("Person verification failed: " ++ e) e
    | inl st =>
        let avg_confidence :=
          match confidence_scores st with
          | [] => 0.0
          | _ => np_mean (confidence_scores st)
          end in
        {| success := verified st;
           confidence := avg_confidence;
           message := "Person verification completed";
           error := None;
           metrics := PersonMetrics (frame_count st) (confidence_scores st) |}
    end.

End PersonVerification.

(** ** [midas_liveness_service.py] *)
Module Midas.
Import Step.

(** What MediaPipe, [solvePnP] and the depth map give for a frame with a
    face: the mean reprojection error when [solvePnP] succeeds, the head pose
    angles, the face size, and [np.std] of the depth region when that region
    is not empty. *)
Record Landmarks : Type := mkLandmarks {
  pnp_reproj_err : option Q;
  yaw : Q;
  pitch : Q;
  roll : Q;
  face_size : Z;
  roi_std : option Q
}.

(** One frame: the mean grey level and the face landmarks, if any. *)
Record Obs : Type := mkObs {
  brightness : Q;
  multi_face_landmarks : option Landmarks
}.

(** [liveness_decision]; the result is
    [(is_live, cond_depth, cond_pnp, total_confidence)]. *)
Definition liveness_decision (depth_std_face reproj_err yaw pitch roll : Q)
    (face_size : Z) (depth_thresh motion_thresh : Q) : bool * bool * bool * Q :=
  let cond_depth := Qltb depth_thresh depth_std_face in
  let cond_pnp := Qltb reproj_err 12.0 in
  let cond_motion := true in
  let depth_conf := py_min 1.0 (depth_std_face / (depth_thresh * 2)) in
  let pnp_conf := py_max 0.0 (1.0 - (reproj_err / 12.0)) in
  let motion_conf := 0.5 in
  let total_confidence := depth_conf * 0.4 + pnp_conf * 0.3 + motion_conf * 0.3 in
  let is_live := (cond_depth && cond_pnp) && Qltb 0.7 total_confidence in
  (is_live, cond_depth, cond_pnp, total_confidence).

Definition adaptive_depth_thresh (o : Obs) : Q :=
  3.0 * (0.8 + 0.4 * (brightness o / 128.0)).

(** The measurements of a frame as they stand before the decision vote:
    [depth_std_face, reproj_err, yaw, pitch, roll, face_size]. *)
Definition measure (o : Obs) : Q * Q * Q * Q * Q * Z :=
  match multi_face_landmarks o with
  | None => (0.0, 1e9, 0.0, 0.0, 0.0, 0%Z)
  | Some lm =>
      let '(reproj_err, y, p, r) :=
        match pnp_reproj_err lm with
        | Some e => (e, yaw lm, pitch lm, roll lm)
        | None => (1e9, 0.0, 0.0, 0.0)
        end in
      let depth_std_face := match roi_std lm with Some d => d | None => 0.0 end in
      (depth_std_face, reproj_err, y, p, r, face_size lm)
  end.

(** The vote of one frame: [(live, confidence)]. *)
Definition vote (o : Obs) : bool * Q :=
  let '(depth_std_face, reproj_err, y, p, r, fs) := measure o in
  let '(live, _, _, conf) :=
    liveness_decision depth_std_face reproj_err y p r fs
                      (adaptive_depth_thresh o) 0.2 in
  (live, conf).

(** [deque(maxlen=n).append(x)]: the oldest entries fall out. *)
Definition deque_append {A : Type} (maxlen : nat) (d : list A) (x : A) : list A :=
  let d' := d ++ [x] in skipn (List.length d' - maxlen) d'.

(** The local variables of [run_liveness_check]. *)
Record State : Type := mkState {
  live_votes : list bool;
  confidence_scores : list Q;
  frame_count : nat
}.

Definition init : State :=
  {| live_votes := []; confidence_scores := []; frame_count := 0 |}.

(** The vote at the end of the body of the [while] loop, as it is written;
    [maxlen] is [int(duration * 30)].  A run of the check does not get
    this far, see [loop] below. *)
Definition on_frame (maxlen : nat) (o : Obs) (st : State) : State :=
  let (live, conf) := vote o in
  {| live_votes := deque_append maxlen (live_votes st) live;
     confidence_scores := confidence_scores st ++ [conf];
     frame_count := S (frame_count st) |}.

(** The decision after the loop.  With no vote at all the log line that
    follows the decision divides by [len(live_votes)] and the
    [ZeroDivisionError] lands in the [except] clause. *)
Definition final_decision (st : State) : StepDict :=
  match live_votes st with
  | [] => failure "2D/3D liveness check failed: division by zero"
                  "division by zero"
  | _ =>
      let final_live :=
        Qltb 0.6 (inject_Z (Z.of_nat (count_true (live_votes st)))
                  / Qlen (live_votes st)) in
      let final_confidence :=
        match confidence_scores st with
        | [] => 0.0
        | _ => np_mean (confidence_scores st)
        end in
      {| success := final_live;
         confidence := final_confidence;
         message := if final_live
                    then "2D/3D liveness check completed successfully"
                    else "2D/3D liveness check failed";
         error := None;
         metrics := MidasMetrics (count_true (live_votes st))
                                 (List.length (live_votes st)) (frame_count st) |}
  end.

(** The text of the [NameError] of [with torch.no_grad()]: the module
    does not import [torch]; [_load_models] imports it as a local name of
    its own. *)
Definition torch_unbound : string := "name 'torch' is not defined"%string.

(** The [while] loop as it runs.  A frame that is delivered is counted
    and handed to the MiDaS transform; the next statement,
    [with torch.no_grad()], raises.  The statements after it, down to the
    vote ([on_frame]), are not reached. *)
Fixpoint loop (frames : list (Capture Obs)) (st : State) : State + string :=
  match frames with
  | [] => inl st
  | NoFrame :: fs => loop fs st
  | Fault e :: _ => inr e
  | Frame _ _ :: _ => inr torch_unbound
  end.

(** [duration] is in seconds. *)
Definition run_liveness_check (model_loaded : bool) (duration : nat)
    (display : bool) (frames : list (Capture Obs)) : StepDict :=
  if negb model_loaded then
    failure "MiDaS/MediaPipe models not loaded" "Models not available"
  else
    match loop frames init with
    | inr e => failure ("2D/3D liveness check failed: " ++ e) e
    | inl st => final_decision st
    end.

End Midas.

(** ** [mouth_captcha_service.py] *)
Module MouthCaptcha.
Import Step.

Local Open Scope string_scope.

(** The numeric and speech routines the service calls and does not define:
    numpy's [std] and word2number's [word_to_num] ([None] when it raises). *)
Record Providers : Type := mkProviders {
  np_std : list Q -> Q;
  word_to_num : string -> option Z
}.

(** [random.choice(["+", "-"])]. *)
Inductive Op : Type := Plus | Minus.

Definition op_str (op : Op) : string :=
  match op with Plus => "+" | Minus => "-" end.

(** The three random draws of a captcha. *)
Record Draw : Type := mkDraw {
  draw_a : Z;
  draw_b : Z;
  draw_op : Op
}.

(** The expected answer of the camera captcha, folded into [0, 99]. *)
Definition captcha_value (d : Draw) : Z :=
  let answer := match draw_op d with
                | Plus => (draw_a d + draw_b d)%Z
                | Minus => (draw_a d - draw_b d)%Z
                end in
  let answer := if (answer <? 0)%Z then Z.abs answer else answer in
  if (99 <? answer)%Z then (answer mod 100)%Z else answer.

(** The first token that is a number, [for token in spoken_text.split()]. *)
Definition first_digit_token (spoken_text : string) : option string :=
  find isdigit (split spoken_text).

(** The spoken number: [word_to_num] on the whole utterance, else the first
    purely numeric token. *)
Definition recognize (P : Providers) (spoken_text : string) : option string :=
  match word_to_num P spoken_text with
  | Some n => Some (py_str n)
  | None => first_digit_token spoken_text
  end.

(** [recognized_number == s] for a string [s]. *)
Definition eq_answer (recognized_number : option string) (s : string) : bool :=
  match recognized_number with
  | Some r => String.eqb r s
  | None => false
  end.

(** Truth value of an optional string: [None] and [''] are false. *)
Definition truthy (o : option string) : bool :=
  match o with
  | Some s => negb (String.eqb s "")
  | None => false
  end.

(** One frame of the camera captcha: the mouth aspect ratio of every detected
    face, and the text of the utterance the recogniser completed on the audio
    chunk taken in this iteration, if any. *)
Record Obs : Type := mkObs {
  mars : list Q;
  utterance : option string
}.

(** The local variables of [run_captcha_verification]. *)
Record State : Type := mkState {
  mar_movement : list Q;
  spoken_text : string;
  frame_count : nat
}.

Definition init : State :=
  {| mar_movement := []; spoken_text := ""; frame_count := 0 |}.

Definition on_frame (o : Obs) (st : State) : State :=
  {| mar_movement := mar_movement st ++ mars o;
     spoken_text := if truthy (utterance o)
                    then spoken_text st ++ " " ++
                         match utterance o with Some t => t | None => "" end
                    else spoken_text st;
     frame_count := S (frame_count st) |}.

Definition run_captcha_verification (P : Providers) (model_loaded : bool)
    (d : Draw) (display : bool) (frames : list (Capture Obs)) : StepDict :=
  if negb model_loaded then
    failure "Mouth captcha models not loaded" "Models not available"
  else
    let captcha_question :=
      py_str (draw_a d) ++ " " ++ op_str (draw_op d) ++ " "
             ++ py_str (draw_b d) ++ " = ?" in
    let captcha_answer := py_str (captcha_value d) in
    match capture_loop true on_frame frames init with
    | inr e => failure ("Mouth captcha verification failed: " ++ e) e
    | inl st =>
        let avg_mar_change :=
          match mar_movement st with
          | [] => 0.0%Q
          | _ => np_std P (mar_movement st)
          end in
        let spoken := strip (spoken_text st) in
        let recognized_number := recognize P spoken in
        let matched := eq_answer recognized_number captcha_answer in
        let mar_score := py_min 1.0 (avg_mar_change / 0.02) in
        let answer_score := if matched then 1.0%Q else 0.0%Q in
        let ok := Qltb 0.01 avg_mar_change && matched in
        {| success := ok;
           confidence := (mar_score + answer_score) / 2.0;
           message := if ok
                      then "Voice captcha verification completed successfully"
                      else "Voice captcha verification failed";
           error := None;
           metrics := CaptchaMetrics captcha_question captcha_answer spoken
                        recognized_number avg_mar_change (frame_count st) |}
    end.

(** The answer of a caller-supplied expression; [None] when any of
    [int(tokens[0])], [tokens[1]], [int(tokens[2])] raises. *)
Definition parse_expression (expression : string) : option Z :=
  match split (remove_char "="%char expression) with
  | t0 :: t1 :: t2 :: _ =>
      match py_int t0, py_int t2 with
      | Some a, Some b =>
          Some (if String.eqb t1 "+" then (a + b)%Z else (a - b)%Z)
      | _, _ => None
      end
  | _ => None
  end.

(** The uploaded recording as the recogniser hears it: unreadable
    ([sf.read] raises), or the partial result after every chunk and the
    final result. *)
Inductive Audio : Type :=
| Unreadable (e : string)
| Speech (partials : list string) (final : string).

(** [expression] is [None] when the caller passes none; the empty string is
    as good as none.  [d] holds the random draws of the fallback branch. *)
Definition verify_uploaded_audio (P : Providers) (model_loaded : bool)
    (d : Draw) (audio : Audio) (expression : option string) : StepDict :=
  if negb model_loaded then
    failure "Mouth captcha models not loaded" "Models not available"
  else
    let '(answer, expression) :=
      if truthy expression then
        let e := match expression with Some e => e | None => "" end in
        (parse_expression e, e)
      else
        (Some (match draw_op d with
               | Plus => (draw_a d + draw_b d)%Z
               | Minus => (draw_a d - draw_b d)%Z
               end),
         py_str (draw_a d) ++ " " ++ op_str (draw_op d) ++ " " ++ py_str (draw_b d)) in
    let expected := option_map (fun a => py_str (Z.abs a)) answer in
    match audio with
    | Unreadable e =>
        failure ("Voice captcha upload verification failed: " ++ e) e
    | Speech partials final =>
        let heard :=
          fold_left (fun acc p => if String.eqb p "" then acc else acc ++ " " ++ p)
                    partials "" in
        let spoken := strip (heard ++ " " ++ final) in
        let recognized_number := recognize P spoken in
        let '(ok, conf) :=
          match expected with
          | Some ex =>
              let ok := eq_answer recognized_number ex in
              (ok, if ok then 1.0%Q
                   else if truthy recognized_number then 0.5%Q else 0.0%Q)
          | None =>
              let ok := truthy recognized_number in
              (ok, if ok then 0.5%Q else 0.0%Q)
          end in
        {| success := ok;
           confidence := conf;
           message := if ok then "Voice captcha (upload) completed successfully"
                      else "Voice captcha (upload) failed";
           error := None;
           metrics := UploadMetrics
                        (if String.eqb expression "" then None
                         else Some (expression ++ " = ?"))
                        expected spoken recognized_number |}
    end.

End MouthCaptcha.

(** ** [camera_service.py] *)

(** What happens to the capture device and which steps are started, in
    order.  [DeviceReleased held] records a call of [release()] on the
    stored handle; [held] tells whether that handle was open, that is,
    whether the device was held. *)
Inductive Event : Type :=
| DeviceOpened
| DeviceReleased (held : bool)
| StepStarted (name : string).

Module Camera.

(** A [cv2.VideoCapture] handle, as far as [isOpened()] tells. *)
Record VideoCapture : Type := mkCapture {
  isOpened : bool
}.

(** What [cv2.VideoCapture(source, cv2.CAP_DSHOW)] does: it opens the
    device, returns a handle that is not open, or raises. *)
Inductive OpenOutcome : Type :=
| Opens
| StaysClosed
| OpenRaises (e : string).

(** [CameraService]: the attribute [self.camera], with the log of events. *)
Record Sys : Type := mkSys {
  camera : option VideoCapture;
  log : list Event
}.

Definition needs_open (s : Sys) : bool :=
  match camera s with
  | None => true
  | Some c => negb (isOpened c)
  end.

(** A new handle is created when none is stored or the stored one is not
    open.  When [cv2.VideoCapture] raises, the [except] clause returns
    [None] and [self.camera] is as before; a handle that is not open is
    stored and [None] is returned. *)
Definition get_camera (o : OpenOutcome) (s : Sys) : option VideoCapture * Sys :=
  if needs_open s then
    match o with
    | OpenRaises _ => (None, s)
    | StaysClosed =>
        (None, {| camera := Some {| isOpened := false |}; log := log s |})
    | Opens =>
        let c := {| isOpened := true |} in
        (Some c, {| camera := Some c; log := log s ++ [DeviceOpened] |})
    end
  else (camera s, s).

(** [release()] on the stored handle is taken not to raise; the handle is
    dropped afterwards. *)
Definition release_camera (s : Sys) : Sys :=
  match camera s with
  | Some c =>
      {| camera := None; log := log s ++ [DeviceReleased (isOpened c)] |}
  | None => s
  end.

(** The device is held when the stored handle is open. *)
Definition held (s : Sys) : bool :=
  match camera s with
  | Some c => isOpened c
  | None => false
  end.

(** The service as [CameraService.__init__] leaves it. *)
Definition fresh : Sys := {| camera := None; log := [] |}.

End Camera.

(** ** [liveness_service.py] *)

(** An entry of [step_results]. *)
Module Entry.

Inductive Extra : Type :=
| NoExtra
| BlinkExtra (blinks_detected gaze_movements : nat)
| CaptchaExtra (captcha_question captcha_answer spoken_text : string).

Record t : Type := mk {
  passed : bool;
  confidence : Q;
  message : option string;
  error : option string;
  extra : Extra
}.

(** The entry an [except] clause of the orchestrator writes. *)
Definition failed (e : string) : t :=
  {| passed := false; confidence := 0.0; message := None;
     error := Some e; extra := NoExtra |}.

End Entry.

(** The dictionary [results]; the keys [passed_steps], [total_steps] and
    [message] exist only after the final [results.update].  The time stamp
    is left out. *)
Module Results.

Record t : Type := mk {
  success : bool;
  is_live : bool;
  confidence : Q;
  steps : list (string * Entry.t);
  error : option string;
  passed_steps : option nat;
  total_steps : option nat;
  message : option string
}.

Definition initial : t :=
  {| success := false; is_live := false; confidence := 0.0; steps := [];
     error := None; passed_steps := None; total_steps := None;
     message := None |}.

Definition with_error (e : string) (r : t) : t :=
  {| success := success r; is_live := is_live r; confidence := confidence r;
     steps := steps r; error := Some e; passed_steps := passed_steps r;
     total_steps := total_steps r; message := message r |}.

End Results.

Module Liveness.

Local Open Scope string_scope.

(** [self.config]. *)
Record Config : Type := mkConfig {
  person_verification_duration : nat;
  midas_liveness_duration : nat;
  blink_detection_duration : nat;
  mouth_captcha_duration : nat;
  enable_display : bool;
  confidence_threshold : Q
}.

(** The configuration of [__init__]; the API layer changes nothing but
    [enable_display]. *)
Definition config (display : bool) : Config :=
  {| person_verification_duration := 2;
     midas_liveness_duration := 5;
     blink_detection_duration := 4;
     mouth_captcha_duration := 7;
     enable_display := display;
     confidence_threshold := 0.7 |}.

(** What calling a step service inside its [try] block gives. *)
Inductive Outcome : Type :=
| Returned (d : Step.StepDict)
| Raised (e : string).

(** The ways out of the [try] block other than reaching its end. *)
Inductive Exit : Type :=
| Return (r : Results.t)
| Raise (e : string).

(** Computations of the [try] block: they read and extend the event log and
    either go on with a value or leave the block. *)
Definition M (A : Type) : Type := Camera.Sys -> (A + Exit) * Camera.Sys.

Definition ret {A : Type} (a : A) : M A := fun s => (inl a, s).

Definition bind {A B : Type} (m : M A) (k : A -> M B) : M B :=
  fun s => match m s with
           | (inl a, s') => k a s'
           | (inr x, s') => (inr x, s')
           end.

Definition leave {A : Type} (x : Exit) : M A := fun s => (inr x, s).

Definition emit (ev : Event) : M unit :=
  fun s => (inl tt, {| Camera.camera := Camera.camera s;
                       Camera.log := Camera.log s ++ [ev] |}).

Notation "x <- m ;; k" := (bind m (fun x => k))
  (at level 61, m at next level, right associativity).

(** The local variables [step_results], [total_confidence], [passed_steps]. *)
Record Acc : Type := mkAcc {
  step_results : list (string * Entry.t);
  total_confidence : Q;
  passed_steps : nat
}.

Definition record (name : string) (e : Entry.t) (acc : Acc) : Acc :=
  {| step_results := step_results acc ++ [(name, e)];
     total_confidence := total_confidence acc;
     passed_steps := passed_steps acc |}.

Definition credit (c : Q) (acc : Acc) : Acc :=
  {| step_results := step_results acc;
     total_confidence := total_confidence acc + c;
     passed_steps := S (passed_steps acc) |}.

(** The entries written from a step's dictionary. *)
Definition plain_entry (d : Step.StepDict) : Entry.t :=
  {| Entry.passed := Step.success d;
     Entry.confidence := Step.confidence d;
     Entry.message := Some (Step.message d);
     Entry.error := None;
     Entry.extra := Entry.NoExtra |}.

Definition blink_entry (d : Step.StepDict) : Entry.t :=
  {| Entry.passed := Step.success d;
     Entry.confidence := Step.confidence d;
     Entry.message := Some (Step.message d);
     Entry.error := None;
     Entry.extra :=
       match Step.metrics d with
       | Step.BlinkMetrics b g _ => Entry.BlinkExtra b g
       | _ => Entry.BlinkExtra 0 0
       end |}.

Definition captcha_entry (d : Step.StepDict) : Entry.t :=
  {| Entry.passed := Step.success d;
     Entry.confidence := Step.confidence d;
     Entry.message := Some (Step.message d);
     Entry.error := None;
     Entry.extra :=
       match Step.metrics d with
       | Step.CaptchaMetrics q a t _ _ _ => Entry.CaptchaExtra q a t
       | _ => Entry.CaptchaExtra "" "" ""
       end |}.

Definition skipped_entry : Entry.t :=
  {| Entry.passed := true;
     Entry.confidence := 1.0;
     Entry.message := Some "Skipped - no reference image provided";
     Entry.error := None;
     Entry.extra := Entry.NoExtra |}.

(** One [try: ... except Exception] block around a step: the entry is
    written, a passed step is credited, a failed one ends the run with
    [results] as it is, only [error] set to [label]; an exception leaves an
    error entry and the run goes on. *)
Definition run_stage (name label : string)
    (entry : Step.StepDict -> Entry.t) (o : Outcome)
    (results : Results.t) (acc : Acc) : M Acc :=
  _ <- emit (StepStarted name) ;;
  match o with
  | Returned d =>
      let acc := record name (entry d) acc in
      if Step.success d then ret (credit (Step.confidence d) acc)
      else leave (Return (Results.with_error label results))
  | Raised e => ret (record name (Entry.failed e) acc)
  end.

(** The final [results.update]. *)
Definition finish (cfg : Config) (results : Results.t) (acc : Acc) : Results.t :=
  let final_confidence :=
    if (0 <? passed_steps acc)%nat
    then total_confidence acc / inject_Z (Z.of_nat (passed_steps acc))
    else 0.0%Q in
  let live := (3 <=? passed_steps acc)%nat
              && Qle_bool (confidence_threshold cfg) final_confidence in
  {| Results.success := true;
     Results.is_live := live;
     Results.confidence := final_confidence;
     Results.steps := step_results acc;
     Results.error := Results.error results;
     Results.passed_steps := Some (passed_steps acc);
     Results.total_steps := Some 4%nat;
     Results.message :=
       Some (if live then "Liveness detection completed successfully"
             else "Liveness detection failed") |}.

(** The body of the outer [try].  [person] is [None] when no reference image
    is given. *)
Definition detection (cfg : Config) (camera : option Camera.VideoCapture)
    (person : option Outcome) (midas blink captcha : Outcome) : M Results.t :=
  let results := Results.initial in
  _ <- match camera with
       | None => leave (Raise "Camera not available")
       | Some _ => ret tt
       end ;;
  let acc := {| step_results := []; total_confidence := 0.0; passed_steps := 0 |} in
  acc <- match person with
         | Some o =>
             run_stage "person_verification" "Person verification failed"
                       plain_entry o results acc
         | None =>
             ret (credit 1.0 (record "person_verification" skipped_entry acc))
         end ;;
  acc <- run_stage "midas_liveness" "2D/3D liveness check failed"
                   plain_entry midas results acc ;;
  acc <- run_stage "blink_detection" "Blink detection failed"
                   blink_entry blink results acc ;;
  acc <- run_stage "mouth_captcha" "Voice captcha verification failed"
                   captcha_entry captcha results acc ;;
  ret (finish cfg results acc).

(** [run_complete_liveness_detection] with its [except] and [finally]
    clauses, for given behaviours of the device and of the step services. *)
Definition orchestrate (cfg : Config) (o : Camera.OpenOutcome)
    (person : option Outcome) (midas blink captcha : Outcome)
    (s : Camera.Sys) : Results.t * Camera.Sys :=
  let (camera, s1) := Camera.get_camera o s in
  let (out, s2) := detection cfg camera person midas blink captcha s1 in
  let results :=
    match out with
    | inl r => r
    | inr (Return r) => r
    | inr (Raise e) => Results.with_error e Results.initial
    end in
  (results, Camera.release_camera s2).

(** What the run finds outside the service: the device, the decoder of the
    reference image together with the number of faces InsightFace sees in
    the decoded image ([inl] is the text of the [ValueError]), the model
    flags, the iterations of every step's loop, and the captcha draws. *)
Record World : Type := mkWorld {
  open_outcome : Camera.OpenOutcome;
  decode_image_from_base64 : string -> string + nat;
  person_loaded : bool;
  person_frames : list (Capture PersonVerification.Faces);
  midas_loaded : bool;
  midas_frames : list (Capture Midas.Obs);
  blink_loaded : bool;
  blink_frames : list (Capture (list Blink.Face));
  captcha_loaded : bool;
  captcha_draw : MouthCaptcha.Draw;
  captcha_frames : list (Capture MouthCaptcha.Obs);
  providers : MouthCaptcha.Providers
}.

(** Step 1 as the orchestrator calls it: decoding may raise, the service
    itself returns a dictionary. *)
Definition person_outcome (cfg : Config) (w : World)
    (reference_image_data : option string) : option Outcome :=
  if MouthCaptcha.truthy reference_image_data then
    let data := match reference_image_data with Some d => d | None => "" end in
    Some match decode_image_from_base64 w data with
         | inl e => Raised e
         | inr ref_faces =>
             Returned (PersonVerification.verify_person
                         (person_loaded w) ref_faces
                         (enable_display cfg) (person_frames w))
         end
  else None.

Definition midas_outcome (cfg : Config) (w : World) : Outcome :=
  Returned (Midas.run_liveness_check (midas_loaded w)
              (midas_liveness_duration cfg) (enable_display cfg)
              (midas_frames w)).

Definition blink_outcome (cfg : Config) (w : World) : Outcome :=
  Returned (Blink.detect_blinks (blink_loaded w) (enable_display cfg)
              (blink_frames w)).

Definition captcha_outcome (cfg : Config) (w : World) : Outcome :=
  Returned (MouthCaptcha.run_captcha_verification (providers w)
              (captcha_loaded w) (captcha_draw w) (enable_display cfg)
              (captcha_frames w)).

(** [run_complete_liveness_detection(reference_image_data)]. *)
Definition run_complete_liveness_detection (cfg : Config) (w : World)
    (reference_image_data : option string) (s : Camera.Sys)
    : Results.t * Camera.Sys :=
  orchestrate cfg (open_outcome w)
              (person_outcome cfg w reference_image_data)
              (midas_outcome cfg w) (blink_outcome cfg w)
              (captcha_outcome cfg w) s.

End Liveness.

(** ** [legacy/midas_liveness.py]: the motion score of the stand-alone check

    Only the motion part of the legacy [liveness_decision] is modelled: the
    pose histories, the variance over the last [MOTION_WINDOW_SIZE] frames
    and the score derived from it. *)
Module Legacy.

Definition MAX_TRACK_HISTORY : nat := 150.
Definition MOTION_WINDOW_SIZE : nat := 10.

(** The module-level deques. *)
Record History : Type := mkHistory {
  yaw_hist : list Q;
  pitch_hist : list Q;
  roll_hist : list Q;
  motion_history : list Q
}.

Definition init : History :=
  {| yaw_hist := []; pitch_hist := []; roll_hist := []; motion_history := [] |}.

(** [list(d)[-n:]]. *)
Definition last_n {A : Type} (n : nat) (l : list A) : list A :=
  skipn (List.length l - n) l.

(** The motion score of one frame and the histories after it. *)
Definition motion_conf (h : History) (yaw pitch roll motion_thresh : Q)
    : Q * History :=
  let yh := Midas.deque_append MAX_TRACK_HISTORY (yaw_hist h) yaw in
  let ph := Midas.deque_append MAX_TRACK_HISTORY (pitch_hist h) pitch in
  let rh := Midas.deque_append MAX_TRACK_HISTORY (roll_hist h) roll in
  let '(motion_var, mh) :=
    if (3 <=? List.length yh)%nat then
      let v := np_var (last_n MOTION_WINDOW_SIZE yh)
               + np_var (last_n MOTION_WINDOW_SIZE ph)
               + np_var (last_n MOTION_WINDOW_SIZE rh) in
      let mh := Midas.deque_append MOTION_WINDOW_SIZE (motion_history h) v in
      (if (3 <=? List.length mh)%nat then np_mean mh else v, mh)
    else (0.0, motion_history h) in
  (py_min 1.0 (motion_var / (motion_thresh * 2)),
   {| yaw_hist := yh; pitch_hist := ph; roll_hist := rh; motion_history := mh |}).

End Legacy.

(** ** Notions used in the statements *)

(** A reading below the blink threshold. *)
Definition low (ear : Q) : bool := Qltb ear Blink.EYE_AR_THRESH.

(** The number of places in a sequence of EAR readings where two consecutive
    low readings are followed by a reading that is not low. *)
Fixpoint blink_events (ears : list Q) : nat :=
  match ears with
  | e2 :: tl =>
      match tl with
      | e1 :: e :: _ =>
          ((if low e2 && low e1 && negb (low e) then 1 else 0)
           + blink_events tl)%nat
      | _ => 0%nat
      end
  | [] => 0%nat
  end.

(** A reading above the blink threshold. *)
Definition high (ear : Q) : bool := Qltb Blink.EYE_AR_THRESH ear.

(** The same count with "returns above the threshold" read strictly: two
    consecutive low readings followed by a reading above the threshold. *)
Fixpoint strict_blink_events (ears : list Q) : nat :=
  match ears with
  | e2 :: tl =>
      match tl with
      | e1 :: e :: _ =>
          ((if low e2 && low e1 && high e then 1 else 0)
           + strict_blink_events tl)%nat
      | _ => 0%nat
      end
  | [] => 0%nat
  end.

(** The similarity scores of the frames that show exactly one face. *)
Definition one_face_scores (frames : list PersonVerification.Faces) : list Q :=
  flat_map (fun faces => match faces with [s] => [s] | _ => [] end) frames.

(** A frame with exactly one face whose similarity exceeds 0.5. *)
Definition matched (faces : PersonVerification.Faces) : bool :=
  match faces with
  | [s] => Qltb 0.5 s
  | _ => false
  end.

(** The steps started, in order. *)
Definition started (l : list Event) : list string :=
  flat_map (fun ev => match ev with StepStarted n => [n] | _ => [] end) l.

(** How often a held device was released. *)
Definition held_releases (l : list Event) : nat :=
  List.length (filter (fun ev => match ev with
                                 | DeviceReleased true => true
                                 | _ => false
                                 end) l).

(** How often [release()] was called at all. *)
Definition release_calls (l : list Event) : nat :=
  List.length (filter (fun ev => match ev with
                                 | DeviceReleased _ => true
                                 | _ => false
                                 end) l).

(** The EAR readings of a sequence of frames, face by face. *)
Definition ears_of (frames : list (list Blink.Face)) : list Q :=
  map (fun f => (Blink.left_ear f + Blink.right_ear f) / 2.0) (List.concat frames).

(** The counter and the blink total are what the debounce counter computes
    on the readings taken so far. *)
Definition blink_inv (ears : list Q) (st : Blink.State) : Prop :=
  Blink.ear_values st = ears /\
  (Blink.counter st, Blink.total_blinks st)
  = fold_left (fun ct e => Blink.blink_update e ct) ears (0%nat, 0%nat).

(** The depth and pose scores of the per-frame vote. *)
Definition depth_score (depth_std depth_thresh : Q) : Q :=
  py_min 1 (depth_std / (2 * depth_thresh)).

Definition pose_score (reproj_err : Q) : Q :=
  py_max 0 (1 - reproj_err / 12.0).

(** The per-frame confidence as the vote computes it, written with the
    scores above: the motion score is the constant 0.5. *)
Definition frame_confidence (o : Midas.Obs) : Q :=
  let '(depth_std, reproj_err, _, _, _, _) := Midas.measure o in
  let depth_thresh := 3.0 * (0.8 + 0.4 * (Midas.brightness o / 128)) in
  0.4 * depth_score depth_std depth_thresh
  + 0.3 * pose_score reproj_err
  + 0.3 * 0.5.

(** What [verify_person] has seen after the frames [seen]. *)
Definition person_inv (seen : list PersonVerification.Faces)
    (st : PersonVerification.State) : Prop :=
  PersonVerification.verified st = existsb matched seen /\
  PersonVerification.confidence_scores st = one_face_scores seen /\
  PersonVerification.frame_count st = List.length seen.

(** *** The steps of a run as a list

    The four [try] blocks of the orchestrator, in the order of the source;
    the first is present only with a reference image. *)
Record Stage : Type := mkStage {
  stage_name : string;
  stage_label : string;
  stage_entry : Step.StepDict -> Entry.t;
  stage_outcome : Liveness.Outcome
}.

Definition stages (person : option Liveness.Outcome)
    (midas blink captcha : Liveness.Outcome) : list Stage :=
  match person with
  | Some o => [mkStage "person_verification" "Person verification failed"
                       Liveness.plain_entry o]
  | None => []
  end
  ++ [mkStage "midas_liveness" "2D/3D liveness check failed"
              Liveness.plain_entry midas;
      mkStage "blink_detection" "Blink detection failed"
              Liveness.blink_entry blink;
      mkStage "mouth_captcha" "Voice captcha verification failed"
              Liveness.captcha_entry captcha].

(** A step that returns [passed = false]. *)
Definition failing (st : Stage) : bool :=
  match stage_outcome st with
  | Liveness.Returned d => negb (Step.success d)
  | Liveness.Raised _ => false
  end.

(** The accumulators before the first [try] block that calls a service. *)
Definition start_acc (person : option Liveness.Outcome) : Liveness.Acc :=
  let acc := {| Liveness.step_results := [];
                Liveness.total_confidence := 0.0;
                Liveness.passed_steps := 0 |} in
  match person with
  | Some _ => acc
  | None =>
      Liveness.credit 1.0
        (Liveness.record "person_verification" Liveness.skipped_entry acc)
  end.

(** The effect of a step that does not fail on the accumulators. *)
Definition apply_stage (acc : Liveness.Acc) (st : Stage) : Liveness.Acc :=
  match stage_outcome st with
  | Liveness.Returned d =>
      Liveness.credit (Step.confidence d)
        (Liveness.record (stage_name st) (stage_entry st d) acc)
  | Liveness.Raised e =>
      Liveness.record (stage_name st) (Entry.failed e) acc
  end.

Fixpoint run_stages (l : list Stage) (results : Results.t)
    (acc : Liveness.Acc) : Liveness.M Liveness.Acc :=
  match l with
  | [] => Liveness.ret acc
  | st :: tl =>
      Liveness.bind
        (Liveness.run_stage (stage_name st) (stage_label st) (stage_entry st)
                            (stage_outcome st) results acc)
        (fun acc' => run_stages tl results acc')
  end.

(** The service state with more events logged. *)
Definition extend (s : Camera.Sys) (evs : list Event) : Camera.Sys :=
  {| Camera.camera := Camera.camera s; Camera.log := Camera.log s ++ evs |}.

(** Whether [get_camera] hands out a handle. *)
Definition acquired (o : Camera.OpenOutcome) (s : Camera.Sys) : bool :=
  match fst (Camera.get_camera o s) with
  | Some _ => true
  | None => false
  end.

(** *** Sample inputs *)

(** Four frames with one face each whose eyes read 0.30, 0.18, 0.18, 0.30. *)
Definition blink_sample : list (Capture (list Blink.Face)) :=
  map (fun e => Frame [{| Blink.left_ear := e; Blink.right_ear := e;
                          Blink.eye36 := {| Blink.left_white := 4; Blink.right_white := 10 |};
                          Blink.eye42 := {| Blink.left_white := 4; Blink.right_white := 10 |} |}]
                      false)
      [0.30; 0.18; 0.18; 0.30].

(** Three frames with one face each whose eyes read 0.18, 0.18 and exactly
    the threshold 0.22. *)
Definition boundary_sample : list (Capture (list Blink.Face)) :=
  map (fun e => Frame [{| Blink.left_ear := e; Blink.right_ear := e;
                          Blink.eye36 := {| Blink.left_white := 4; Blink.right_white := 10 |};
                          Blink.eye42 := {| Blink.left_white := 4; Blink.right_white := 10 |} |}]
                      false)
      [0.18; 0.18; 0.22].

(** A frame of a well-lit, well-tracked face with depth relief [d]. *)
Definition face_frame (d : Q) : Midas.Obs :=
  {| Midas.brightness := 128;
     Midas.multi_face_landmarks :=
       Some {| Midas.pnp_reproj_err := Some 0;
               Midas.yaw := 0; Midas.pitch := 0; Midas.roll := 0;
               Midas.face_size := 200;
               Midas.roi_std := Some d |} |}.

(** A frame without a face. *)
Definition empty_frame : Midas.Obs :=
  {| Midas.brightness := 128; Midas.multi_face_landmarks := None |}.

(** [n] frames with a live vote followed by [m] frames without a face. *)
Definition midas_sample (n m : nat) : list (Capture Midas.Obs) :=
  repeat (Frame (face_frame 7.2) false) n ++ repeat (Frame empty_frame false) m.

(** A frame without a face followed by a frame of the right person. *)
Definition person_sample : list (Capture PersonVerification.Faces) :=
  [Frame [] false; Frame [0.9] false].

(** One frame showing one face that is unlike the reference. *)
Definition stranger_sample : list (Capture PersonVerification.Faces) :=
  [Frame [-0.5] false].

(** A stand-in for [np.std]: the root of the variance, exact when the
    reduced variance is a quotient of perfect squares. *)
Definition sample_std (l : list Q) : Q :=
  let v := Qred (np_var l) in Z.sqrt (Qnum v) # Pos.sqrt (Qden v).

(** A stand-in for [word_to_num] on utterances that are one number written
    in digits, which word2number returns as that number; it raises on the
    rest. *)
Definition digits_to_num (s : string) : option Z :=
  if isdigit s then py_int s else None.

Definition sample_providers : MouthCaptcha.Providers :=
  {| MouthCaptcha.np_std := sample_std;
     MouthCaptcha.word_to_num := digits_to_num |}.

(** Two frames with a moving mouth; the answer "27" is heard on the second. *)
Definition captcha_sample : list (Capture MouthCaptcha.Obs) :=
  [Frame {| MouthCaptcha.mars := [0.30]; MouthCaptcha.utterance := None |} false;
   Frame {| MouthCaptcha.mars := [0.34];
            MouthCaptcha.utterance := Some "27"%string |} false].

(** A run in front of a person who answers "23 + 4" correctly, for a given
    behaviour of the camera and given frames of the blink step. *)
Definition sample_world (o : Camera.OpenOutcome)
    (blinks : list (Capture (list Blink.Face))) : Liveness.World :=
  {| Liveness.open_outcome := o;
     Liveness.decode_image_from_base64 := fun _ => inr 1%nat;
     Liveness.person_loaded := true;
     Liveness.person_frames := person_sample;
     Liveness.midas_loaded := true;
     Liveness.midas_frames := midas_sample 13 7;
     Liveness.blink_loaded := true;
     Liveness.blink_frames := blinks;
     Liveness.captcha_loaded := true;
     Liveness.captcha_draw :=
       {| MouthCaptcha.draw_a := 23; MouthCaptcha.draw_b := 4;
          MouthCaptcha.draw_op := MouthCaptcha.Plus |};
     Liveness.captcha_frames := captcha_sample;
     Liveness.providers := sample_providers |}.

(** A live person in front of a working camera. *)
Definition live_world : Liveness.World := sample_world Camera.Opens blink_sample.

(** The same with a person who never blinks. *)
Definition staring_world : Liveness.World :=
  sample_world Camera.Opens [Frame [] false].

(** The same with a camera that does not open. *)
Definition dark_world : Liveness.World :=
  sample_world Camera.StaysClosed blink_sample.

(** The same with a camera whose driver raises. *)
Definition broken_world : Liveness.World :=
  sample_world (Camera.OpenRaises "no capture backend") blink_sample.

(** The run on [staring_world] with a reference image, and its depth and
    pose check. *)
Definition staring_run : Results.t * Camera.Sys :=
  Liveness.run_complete_liveness_detection (Liveness.config false)
    staring_world (Some "abc"%string) Camera.fresh.

Definition staring_depth_check : Step.StepDict :=
  Midas.run_liveness_check (Liveness.midas_loaded staring_world) 5 false
                           (Liveness.midas_frames staring_world).

(** The run on [live_world] without a reference image. *)
Definition live_run : Results.t * Camera.Sys :=
  Liveness.run_complete_liveness_detection (Liveness.config false)
    live_world None Camera.fresh.

(** A step result that reports a pass with confidence [c], as a step
    service can hand it to the sequence. *)
Definition passed_step (c : Q) : Step.StepDict :=
  {| Step.success := true; Step.confidence := c;
     Step.message := "completed"%string; Step.error := None;
     Step.metrics := Step.NoMetrics |}.

(** The sequence on three such results, without a reference image. *)
Definition four_passes : Results.t * Camera.Sys :=
  Liveness.orchestrate (Liveness.config false) Camera.Opens None
    (Liveness.Returned (passed_step 0.85))
    (Liveness.Returned (passed_step 0.75))
    (Liveness.Returned (passed_step 1)) Camera.fresh.

(** The run on [dark_world]. *)
Definition dark_run : Results.t * Camera.Sys :=
  Liveness.run_complete_liveness_detection (Liveness.config false)
    dark_world None Camera.fresh.

(** The run on [broken_world]. *)
Definition broken_run : Results.t * Camera.Sys :=
  Liveness.run_complete_liveness_detection (Liveness.config false)
    broken_world None Camera.fresh.

(** The names and failure labels of the four steps. *)
Definition step_labels : list (string * string) :=
  [("person_verification", "Person verification failed");
   ("midas_liveness", "2D/3D liveness check failed");
   ("blink_detection", "Blink detection failed");
   ("mouth_captcha", "Voice captcha verification failed")]%string.

(** The text [verify_uploaded_audio] extracts the number from. *)
Definition upload_transcript (partials : list string) (final : string) : string :=
  strip (fold_left (fun acc p => if String.eqb p "" then acc
                                 else (acc ++ " " ++ p)%string)
                   partials ""%string ++ " " ++ final)%string.

(** A recording on which "5" is heard. *)
Definition five_audio : MouthCaptcha.Audio := MouthCaptcha.Speech [] "5".

(** Any draw; it is not used when an expression is given. *)
Definition any_draw : MouthCaptcha.Draw :=
  {| MouthCaptcha.draw_a := 10; MouthCaptcha.draw_b := 1;
     MouthCaptcha.draw_op := MouthCaptcha.Plus |}.

(** *** Tactics *)

(** Division by a numeral is multiplication by its inverse, which [lra]
    then reads as a coefficient. *)
Ltac inv_consts :=
  unfold Qdiv in *;
  repeat match goal with
         | |- context [Qinv (Qmake ?n ?d)] =>
             let v := eval vm_compute in (Qinv (Qmake n d)) in
             change (Qinv (Qmake n d)) with v
         | H : context [Qinv (Qmake ?n ?d)] |- _ =>
             let v := eval vm_compute in (Qinv (Qmake n d)) in
             change (Qinv (Qmake n d)) with v in H
         end.

Ltac qlra := inv_consts; lra.


(** * Further parts of the code

    [run_individual_step] of [liveness_service.py] (module [Individual]),
    sequences of calls of the camera service, the endpoints of
    [api/v1/liveness.py] that run one step (module [Api]), and the data
    URL prefix that [decode_image_from_base64] cuts off. *)

(** ** [liveness_service.py]: [run_individual_step] *)
Module Individual.

Local Open Scope string_scope.

(** The keyword arguments [run_individual_step] reads.  A key can be
    missing ([None]), or present with a value; the value of [duration] can
    be Python's [None] ([Some None]). *)
Record Kwargs : Type := mkKwargs {
  kw_duration : option (option nat);
  kw_display : option bool
}.

(** [kwargs.get('duration', default)]. *)
Definition get_duration (kw : Kwargs) (default : nat) : option nat :=
  match kw_duration kw with
  | Some v => v
  | None => Some default
  end.

(** [kwargs.get('display', default)]. *)
Definition get_display (kw : Kwargs) (default : bool) : bool :=
  match kw_display kw with
  | Some v => v
  | None => default
  end.

(** The text of the [TypeError] of [time.time() - start_time < None]. *)
Definition compare_none : string :=
  "'<' not supported between instances of 'float' and 'NoneType'".

(** The text of the [TypeError] of [None * 30]. *)
Definition multiply_none : string :=
  "unsupported operand type(s) for *: 'NoneType' and 'int'".

(** The iterations of a step's loop for a given [duration]: with [None]
    the first evaluation of the loop condition raises, so that no frame is
    taken. *)
Definition budget {A : Type} (duration : option nat)
    (frames : list (Capture A)) : list (Capture A) :=
  match duration with
  | Some _ => frames
  | None => [Fault compare_none]
  end.

(** The four services called with a [duration] that may be [None]. *)
Definition verify_person (w : Liveness.World) (ref_faces : nat)
    (duration : option nat) (display : bool) : Step.StepDict :=
  PersonVerification.verify_person (Liveness.person_loaded w) ref_faces
    display (budget duration (Liveness.person_frames w)).

Definition run_liveness_check (w : Liveness.World) (duration : option nat)
    (display : bool) : Step.StepDict :=
  match duration with
  | Some d =>
      Midas.run_liveness_check (Liveness.midas_loaded w) d display
                               (Liveness.midas_frames w)
  | None =>
      (* [deque(maxlen=int(duration * 30))] raises before the loop *)
      Midas.run_liveness_check (Liveness.midas_loaded w) 0 display
                               [Fault multiply_none]
  end.

Definition detect_blinks (w : Liveness.World) (duration : option nat)
    (display : bool) : Step.StepDict :=
  Blink.detect_blinks (Liveness.blink_loaded w) display
                      (budget duration (Liveness.blink_frames w)).

Definition run_captcha_verification (w : Liveness.World)
    (duration : option nat) (display : bool) : Step.StepDict :=
  MouthCaptcha.run_captcha_verification (Liveness.providers w)
    (Liveness.captcha_loaded w) (Liveness.captcha_draw w) display
    (budget duration (Liveness.captcha_frames w)).

(** The state with one more step logged as started. *)
Definition start (name : string) (s : Camera.Sys) : Camera.Sys :=
  {| Camera.camera := Camera.camera s;
     Camera.log := Camera.log s ++ [StepStarted name] |}.

(** The body of the [try] block once a camera is there: the dictionary of
    the step called, or the text of the exception raised. *)
Definition dispatch (cfg : Liveness.Config) (w : Liveness.World)
    (step_name : string) (image_data : option string) (kw : Kwargs)
    (s : Camera.Sys) : (Step.StepDict + string) * Camera.Sys :=
  let display := get_display kw (Liveness.enable_display cfg) in
  if String.eqb step_name "person_verification" then
    if negb (MouthCaptcha.truthy image_data) then
      (inr "Reference image required for person verification", s)
    else
      let data := match image_data with Some d => d | None => "" end in
      match Liveness.decode_image_from_base64 w data with
      | inl e => (inr e, s)
      | inr ref_faces =>
          (inl (verify_person w ref_faces
                  (get_duration kw (Liveness.person_verification_duration cfg))
                  display),
           start step_name s)
      end
  else if String.eqb step_name "midas_liveness" then
    (inl (run_liveness_check w
            (get_duration kw (Liveness.midas_liveness_duration cfg)) display),
     start step_name s)
  else if String.eqb step_name "blink_detection" then
    (inl (detect_blinks w
            (get_duration kw (Liveness.blink_detection_duration cfg)) display),
     start step_name s)
  else if String.eqb step_name "mouth_captcha" then
    (inl (run_captcha_verification w
            (get_duration kw (Liveness.mouth_captcha_duration cfg)) display),
     start step_name s)
  else (inr ("Unknown step: " ++ step_name), s).

(** [run_individual_step(step_name, image_data, **kwargs)] with its
    [except] and [finally] clauses. *)
Definition run_individual_step (cfg : Liveness.Config) (w : Liveness.World)
    (step_name : string) (image_data : option string) (kw : Kwargs)
    (s : Camera.Sys) : Step.StepDict * Camera.Sys :=
  let (camera, s1) := Camera.get_camera (Liveness.open_outcome w) s in
  let (out, s2) :=
    match camera with
    | None => (inr "Camera not available", s1)
    | Some _ => dispatch cfg w step_name image_data kw s1
    end in
  (match out with
   | inl d => d
   | inr e => Step.failure ("Step " ++ step_name ++ " failed") e
   end,
   Camera.release_camera s2).

End Individual.

(** ** [camera_service.py]: sequences of calls *)

(** A call of [get_camera], with what [cv2.VideoCapture] would do if it is
    reached, or a call of [release_camera]. *)
Inductive CameraOp : Type :=
| GetCamera (o : Camera.OpenOutcome)
| ReleaseCamera.

Definition camera_op (s : Camera.Sys) (op : CameraOp) : Camera.Sys :=
  match op with
  | GetCamera o => snd (Camera.get_camera o s)
  | ReleaseCamera => Camera.release_camera s
  end.

(** How often the device was opened. *)
Definition opens (l : list Event) : nat :=
  List.length (filter (fun ev => match ev with
                                 | DeviceOpened => true
                                 | _ => false
                                 end) l).

(** The devices opened are the held devices released plus the one held. *)
Definition camera_balance (s : Camera.Sys) : Prop :=
  opens (Camera.log s)
  = (held_releases (Camera.log s) + (if Camera.held s then 1 else 0))%nat.

(** ** [api/v1/liveness.py]: the endpoints that run one step *)
Module Api.

Local Open Scope string_scope.

(** The JSON object of a request, as far as the handlers read it.  A key
    that is missing and a key whose value is [null] both read as [None]. *)
Record Json : Type := mkJson {
  step_name : option string;
  reference_image : option string;
  duration : option nat;
  enable_display : option bool
}.

(** [{}]. *)
Definition empty_json : Json :=
  {| step_name := None; reference_image := None; duration := None;
     enable_display := None |}.

(** What surrounds the service call in a handler and may raise, each with
    the text of its exception: reading the identity and the body, creating
    and committing the session row, and the commit after the run. *)
Record Env : Type := mkEnv {
  request_fault : option string;
  session_fault : option string;
  commit_fault : option string
}.

(** The bodies the handlers return. *)
Inductive Body : Type :=
| StepBody (d : Step.StepDict)
| VoiceBody (liveness : bool) (message : string)
| ErrorBody (error : string)
| ServerErrorBody (error : string).

Definition Response : Type := (Body * nat)%type.

(** [200 if result['success'] else 400]. *)
Definition status_of (ok : bool) : nat := if ok then 200%nat else 400%nat.

(** [data.get('enable_display', False)] as a truth value. *)
Definition display_of (data : Json) : bool :=
  match enable_display data with
  | Some b => b
  | None => false
  end.

(** [request.get_json() or {}]. *)
Definition or_empty (body : option Json) : Json :=
  match body with
  | Some d => d
  | None => empty_json
  end.

(** The part of a handler from the session row on: the row is committed, a
    new [LivenessDetectionService], hence a new [CameraService], runs, the
    row is committed again; an exception on the way gives status 500. *)
Definition in_session {X : Type} (env : Env) (prefix : string)
    (run : Camera.Sys -> X * Camera.Sys) (respond : X -> Response)
    : Response * Camera.Sys :=
  match session_fault env with
  | Some e => ((ServerErrorBody (prefix ++ e), 500%nat), Camera.fresh)
  | None =>
      let (x, s) := run Camera.fresh in
      match commit_fault env with
      | Some e => ((ServerErrorBody (prefix ++ e), 500%nat), s)
      | None => (respond x, s)
      end
  end.

(** A handler whose first statements may raise. *)
Definition handler (env : Env) (prefix : string)
    (rest : Response * Camera.Sys) : Response * Camera.Sys :=
  match request_fault env with
  | Some e => ((ServerErrorBody (prefix ++ e), 500%nat), Camera.fresh)
  | None => rest
  end.

(** The call [run_individual_step(step_name=..., image_data=...,
    duration=data.get('duration'), display=...)]: both keys are passed,
    [duration] with the value [None] when the request has none. *)
Definition step_call (w : Liveness.World) (name : string)
    (image : option string) (data : Json)
    : Camera.Sys -> Step.StepDict * Camera.Sys :=
  Individual.run_individual_step (Liveness.config false) w name image
    {| Individual.kw_duration := Some (duration data);
       Individual.kw_display := Some (display_of data) |}.

Definition valid_steps : list string :=
  ["person_verification"; "midas_liveness"; "blink_detection"; "mouth_captcha"].

(** The text of the [AttributeError] of [None.get(...)]. *)
Definition no_attribute_get : string :=
  "'NoneType' object has no attribute 'get'".

(** [POST /step]; the body is read without a default. *)
Definition step_post (env : Env) (w : Liveness.World)
    (body : option Json) : Response * Camera.Sys :=
  handler env "Step execution failed: "
    match body with
    | None =>
        ((ServerErrorBody ("Step execution failed: " ++ no_attribute_get),
          500%nat), Camera.fresh)
    | Some data =>
        if negb (MouthCaptcha.truthy (step_name data)) then
          ((ErrorBody "step_name is required", 400%nat), Camera.fresh)
        else
          let name := match step_name data with Some n => n | None => "" end in
          if negb (existsb (String.eqb name) valid_steps) then
            ((ErrorBody
                "Invalid step_name. Must be one of: ['person_verification', 'midas_liveness', 'blink_detection', 'mouth_captcha']",
              400%nat), Camera.fresh)
          else
            in_session env "Step execution failed: "
              (step_call w name (reference_image data) data)
              (fun d => (StepBody d, status_of (Step.success d)))
    end.

(** [POST /person-verification]: no [duration] is passed on. *)
Definition person_verification_post (env : Env) (w : Liveness.World)
    (body : option Json) : Response * Camera.Sys :=
  handler env "Person verification failed: "
    match body with
    | None =>
        ((ServerErrorBody ("Person verification failed: " ++ no_attribute_get),
          500%nat), Camera.fresh)
    | Some data =>
        if negb (MouthCaptcha.truthy (reference_image data)) then
          ((ErrorBody "reference_image is required", 400%nat), Camera.fresh)
        else
          in_session env "Person verification failed: "
            (Individual.run_individual_step (Liveness.config false) w
               "person_verification" (reference_image data)
               {| Individual.kw_duration := None;
                  Individual.kw_display := Some (display_of data) |})
            (fun d => (StepBody d, status_of (Step.success d)))
    end.

(** [POST /2d-3d-check]. *)
Definition check_2d3d_post (env : Env) (w : Liveness.World)
    (body : option Json) : Response * Camera.Sys :=
  handler env "2D/3D liveness check failed: "
    (in_session env "2D/3D liveness check failed: "
       (step_call w "midas_liveness" None (or_empty body))
       (fun d => (StepBody d, status_of (Step.success d)))).

(** [POST /blink-detection]. *)
Definition blink_detection_post (env : Env) (w : Liveness.World)
    (body : option Json) : Response * Camera.Sys :=
  handler env "Blink detection failed: "
    (in_session env "Blink detection failed: "
       (step_call w "blink_detection" None (or_empty body))
       (fun d => (StepBody d, status_of (Step.success d)))).

(** [POST /voice-captcha]: the result is reduced to [liveness] and
    [message]. *)
Definition voice_captcha_post (env : Env) (w : Liveness.World)
    (body : option Json) : Response * Camera.Sys :=
  handler env "Voice captcha verification failed: "
    (in_session env "Voice captcha verification failed: "
       (step_call w "mouth_captcha" None (or_empty body))
       (fun d => (VoiceBody (Step.success d) (Step.message d),
                  status_of (Step.success d)))).

(** [POST /voice-captcha-public]: the same without a session row. *)
Definition voice_captcha_public_post (env : Env) (w : Liveness.World)
    (body : option Json) : Response * Camera.Sys :=
  handler env "Voice captcha (public) failed: "
    (let (d, s) := step_call w "mouth_captcha" None (or_empty body)
                             Camera.fresh in
     ((VoiceBody (Step.success d) (Step.message d),
       status_of (Step.success d)), s)).

End Api.

(** *** Further sample inputs *)

(** [live_world] with a reference image that cannot be decoded. *)
Definition undecodable_world : Liveness.World :=
  {| Liveness.open_outcome := Camera.Opens;
     Liveness.decode_image_from_base64 :=
       fun _ => inl "Image decoding failed: Incorrect padding"%string;
     Liveness.person_loaded := true;
     Liveness.person_frames := person_sample;
     Liveness.midas_loaded := true;
     Liveness.midas_frames := midas_sample 13 7;
     Liveness.blink_loaded := true;
     Liveness.blink_frames := blink_sample;
     Liveness.captcha_loaded := true;
     Liveness.captcha_draw := Liveness.captcha_draw live_world;
     Liveness.captcha_frames := captcha_sample;
     Liveness.providers := sample_providers |}.

(** No keyword argument. *)
Definition no_kwargs : Individual.Kwargs :=
  {| Individual.kw_duration := None; Individual.kw_display := None |}.

(** The reference image as the decoder receives it. *)
Definition image_text (image_data : option string) : string :=
  match image_data with
  | Some d => d
  | None => ""%string
  end.

(** The run on [undecodable_world] with a reference image, and without. *)
Definition undecodable_run : Results.t * Camera.Sys :=
  Liveness.run_complete_liveness_detection (Liveness.config false)
    undecodable_world (Some "abc"%string) Camera.fresh.

Definition unreferenced_run : Results.t * Camera.Sys :=
  Liveness.run_complete_liveness_detection (Liveness.config false)
    undecodable_world None Camera.fresh.

(** *** The captcha question as text *)

(** [f"{a} {op} {b} = ?"], the question of the camera captcha. *)
Definition captcha_question (d : MouthCaptcha.Draw) : string :=
  (py_str (MouthCaptcha.draw_a d) ++ " " ++ MouthCaptcha.op_str (MouthCaptcha.draw_op d)
     ++ " " ++ py_str (MouthCaptcha.draw_b d) ++ " = ?")%string.

(** [a + b] or [a - b], before the camera captcha folds it into two digits. *)
Definition exact_answer (d : MouthCaptcha.Draw) : Z :=
  match MouthCaptcha.draw_op d with
  | MouthCaptcha.Plus => (MouthCaptcha.draw_a d + MouthCaptcha.draw_b d)%Z
  | MouthCaptcha.Minus => (MouthCaptcha.draw_a d - MouthCaptcha.draw_b d)%Z
  end.

(** The draws [random.randint(20, 90)] and [random.randint(0, 10)] of the
    camera captcha can give. *)
Definition camera_draw (d : MouthCaptcha.Draw) : Prop :=
  (20 <= MouthCaptcha.draw_a d <= 90)%Z /\ (0 <= MouthCaptcha.draw_b d <= 10)%Z.

Definition camera_draws : list MouthCaptcha.Draw :=
  flat_map (fun i =>
    flat_map (fun j =>
      map (MouthCaptcha.mkDraw (20 + Z.of_nat i) (Z.of_nat j))
          [MouthCaptcha.Plus; MouthCaptcha.Minus])
      (seq 0 11))
    (seq 0 71).

(** What is checked on every such draw: the upload variant reads the
    question back as the exact answer, which is positive, and the texts
    of the two expected answers agree unless the exact answer is 100. *)
Definition reads_back (d : MouthCaptcha.Draw) : bool :=
  match MouthCaptcha.parse_expression (captcha_question d) with
  | Some v => (v =? exact_answer d)%Z
  | None => false
  end
  && (0 <? exact_answer d)%Z
  && Bool.eqb (String.eqb (py_str (Z.abs (exact_answer d)))
                          (py_str (MouthCaptcha.captcha_value d)))
              (negb (exact_answer d =? 100)%Z).

(** A camera captcha whose answer does not fit into two digits. *)
Definition hundred_draw : MouthCaptcha.Draw :=
  {| MouthCaptcha.draw_a := 90; MouthCaptcha.draw_b := 10;
     MouthCaptcha.draw_op := MouthCaptcha.Plus |}.

(** Three frames without a face while the answer "27" is spoken. *)
Definition voice_only_sample : list (Capture MouthCaptcha.Obs) :=
  [Frame {| MouthCaptcha.mars := []; MouthCaptcha.utterance := None |} false;
   Frame {| MouthCaptcha.mars := [];
            MouthCaptcha.utterance := Some "27"%string |} false;
   Frame {| MouthCaptcha.mars := []; MouthCaptcha.utterance := None |} false].

(** *** The status code of a response *)
Definition status (r : Api.Response * Camera.Sys) : nat := snd (fst r).

(** An environment in which nothing raises. *)
Definition calm : Api.Env :=
  {| Api.request_fault := None; Api.session_fault := None;
     Api.commit_fault := None |}.

(** ** [liveness_service.py]: [decode_image_from_base64], the data URL prefix

    Before the base64 text is decoded, a data URL prefix is cut off:
    [if ',' in image_data: image_data = image_data.split(',')[1]]. *)

(** [s.split(sep)] for a one-character separator: the pieces between the
    separators, empty ones included.  [cur] holds the current piece,
    reversed. *)
Fixpoint split_on_aux (sep : ascii) (cs : list ascii) (cur : list ascii)
    : list string :=
  match cs with
  | [] => [string_of_list_ascii (rev cur)]
  | c :: cs' =>
      if Ascii.eqb c sep
      then string_of_list_ascii (rev cur) :: split_on_aux sep cs' []
      else split_on_aux sep cs' (c :: cur)
  end.

Definition split_on (sep : ascii) (s : string) : list string :=
  split_on_aux sep (list_ascii_of_string s) [].

(** [c in s]. *)
Definition contains (c : ascii) (s : string) : bool :=
  existsb (fun x => Ascii.eqb x c) (list_ascii_of_string s).

(** The text handed to [base64.b64decode]. *)
Definition base64_text (image_data : string) : string :=
  if contains "," image_data
  then nth 1 (split_on "," image_data) ""%string
  else image_data.

(** ** [legacy/midas_liveness.py]: the motion score over a run

    The motion scores of a sequence of frames, each given by its pose
    [(yaw, pitch, roll)] and its adaptive motion threshold, starting from
    the histories [h]. *)
Fixpoint legacy_motion_scores (h : Legacy.History)
    (frames : list (Q * Q * Q * Q)) : list Q :=
  match frames with
  | [] => []
  | (y, p, r, t) :: tl =>
      let (c, h') := Legacy.motion_conf h y p r t in
      c :: legacy_motion_scores h' tl
  end.

(** Three frames of a head that turns. *)
Definition turning_head : list (Q * Q * Q * Q) :=
  [(0, 0, 0, 0.2); (3, 0, 0, 0.2); (6, 0, 0, 0.2)].
(** * Proofs *)

(** ** Comparisons and bounds on floats *)

Lemma Qltb_lt (a b : Q) : Qltb a b = true <-> a < b.
Proof.
  unfold Qltb. rewrite negb_true_iff.
  split; intro H.
  - apply Qnot_le_lt. intro Hle. apply Qle_bool_iff in Hle. congruence.
  - destruct (Qle_bool b a) eqn:E; [|reflexivity].
    apply Qle_bool_iff in E. exfalso. apply (Qlt_not_le _ _ H E).
Qed.

Lemma Qltb_ge (a b : Q) : Qltb a b = false <-> b <= a.
Proof.
  unfold Qltb. rewrite negb_false_iff. apply Qle_bool_iff.
Qed.

Lemma py_min_spec (a b : Q) :
  (b < a /\ py_min a b = b) \/ (a <= b /\ py_min a b = a).
Proof.
  unfold py_min. destruct (Qltb b a) eqn:E.
  - left. split; [now apply Qltb_lt|reflexivity].
  - right. split; [now apply Qltb_ge|reflexivity].
Qed.

Lemma Qdiv_nonneg (a b : Q) : 0 <= a -> 0 < b -> 0 <= a / b.
Proof.
  intros Ha Hb. apply Qle_shift_div_l; [assumption|lra].
Qed.

(** ** The capture loop *)

Lemma capture_loop_fold {A S : Type} (quit : bool) (body : A -> S -> S)
    (frames : list (Capture A)) : forall st st',
  capture_loop quit body frames st = inl st' ->
  st' = fold_left (fun s o => body o s) (processed quit frames) st.
Proof.
  induction frames as [|f fs IH]; intros st st' H; simpl in *.
  - now inversion H.
  - destruct f as [|obs q|e]; simpl in *.
    + now apply IH.
    + destruct (quit && q); simpl.
      * now inversion H.
      * now apply IH.
    + discriminate.
Qed.

Lemma capture_loop_raised {A S : Type} (quit : bool) (body : A -> S -> S)
    (frames : list (Capture A)) :
  forall st,
    capture_loop quit body frames st
    = match raised quit frames with
      | Some e => inr e
      | None => inl (fold_left (fun s o => body o s) (processed quit frames) st)
      end.
Proof.
  induction frames as [|[|o q|e] fs IH]; intro st; cbn [capture_loop raised processed].
  - reflexivity.
  - apply IH.
  - destruct (quit && q); [reflexivity|]. rewrite IH.
    destruct (raised quit fs); reflexivity.
  - reflexivity.
Qed.

Lemma fold_left_invariant {A S : Type} (P : S -> list A -> Prop)
    (body : A -> S -> S) :
  (forall o s seen, P s seen -> P (body o s) (seen ++ [o])) ->
  forall l s seen, P s seen ->
  P (fold_left (fun s o => body o s) l s) (seen ++ l).
Proof.
  intros Hstep l. induction l as [|o l IH]; intros s seen H; simpl.
  - now rewrite app_nil_r.
  - replace (seen ++ o :: l) with ((seen ++ [o]) ++ l)
      by (rewrite <- app_assoc; reflexivity).
    apply IH. now apply Hstep.
Qed.

(** ** Blink counting *)

Lemma low_zero : low 0 = true.
Proof. reflexivity. Qed.

Lemma events_head_cong (a b : Q) (l : list Q) :
  low a = low b -> blink_events (a :: l) = blink_events (b :: l).
Proof.
  intro H. destruct l as [|e1 [|e l]]; simpl; try reflexivity.
  now rewrite H.
Qed.

Lemma events_second_cong (x a b : Q) (l : list Q) :
  low a = low b -> blink_events (x :: a :: l) = blink_events (x :: b :: l).
Proof.
  intro H. destruct l as [|e l].
  - reflexivity.
  - change (blink_events (x :: a :: e :: l))
      with ((if low x && low a && negb (low e) then 1 else 0)
            + blink_events (a :: e :: l))%nat.
    change (blink_events (x :: b :: e :: l))
      with ((if low x && low b && negb (low e) then 1 else 0)
            + blink_events (b :: e :: l))%nat.
    rewrite (events_head_cong a b (e :: l) H), H. reflexivity.
Qed.

Lemma events_high (e : Q) (l : list Q) :
  low e = false -> blink_events (e :: l) = blink_events l.
Proof.
  intro H. destruct l as [|e1 [|e0 l]]; simpl; try reflexivity.
  now rewrite H.
Qed.

Lemma events_low_high (a e : Q) (l : list Q) :
  low e = false -> blink_events (a :: e :: l) = blink_events l.
Proof.
  intro H. destruct l as [|x l].
  - reflexivity.
  - change (blink_events (a :: e :: x :: l))
      with ((if low a && low e && negb (low x) then 1 else 0)
            + blink_events (e :: x :: l))%nat.
    rewrite H, andb_false_r, (events_high e (x :: l) H). reflexivity.
Qed.

Lemma events_low_low_high (a b e : Q) (l : list Q) :
  low a = true -> low b = true -> low e = false ->
  blink_events (a :: b :: e :: l) = S (blink_events l).
Proof.
  intros Ha Hb He.
  change (blink_events (a :: b :: e :: l))
    with ((if low a && low b && negb (low e) then 1 else 0)
          + blink_events (b :: e :: l))%nat.
  rewrite Ha, Hb, He, (events_low_high b e l He). reflexivity.
Qed.

(** The debounce counter, started with [c] low readings behind it, counts
    the events of the readings ahead, the ones behind included as far as
    they matter. *)
Lemma blink_fold_events (ears : list Q) : forall c t,
  snd (fold_left (fun ct e => Blink.blink_update e ct) ears (c, t))
  = (t + blink_events (repeat 0%Q (Nat.min 2 c) ++ ears))%nat.
Proof.
  induction ears as [|e es IH]; intros c t.
  - destruct c as [|[|c]]; cbn; lia.
  - cbn [fold_left]. unfold Blink.blink_update at 2.
    fold (low e). destruct (low e) eqn:He.
    + rewrite IH. f_equal.
      destruct c as [|[|c]]; cbn [Nat.min repeat app].
      * apply events_head_cong. now rewrite He.
      * apply events_second_cong. now rewrite He.
      * change (blink_events (0%Q :: 0%Q :: e :: es))
          with ((if low 0%Q && low 0%Q && negb (low e) then 1 else 0)
                + blink_events (0%Q :: e :: es))%nat.
        rewrite He, low_zero. cbn [andb negb Nat.add].
        apply events_second_cong. now rewrite He.
    + rewrite IH. cbn [Nat.min repeat app].
      destruct c as [|[|c]]; cbn [Nat.min repeat app Nat.leb Blink.EYE_AR_CONSEC_FRAMES].
      * now rewrite events_high.
      * now rewrite events_low_high.
      * rewrite events_low_low_high by (reflexivity || assumption). lia.
Qed.

Lemma count_blinks_events (ears : list Q) :
  Blink.count_blinks ears = blink_events ears.
Proof.
  unfold Blink.count_blinks. rewrite blink_fold_events. reflexivity.
Qed.

Lemma on_face_inv (f : Blink.Face) (st : Blink.State) (ears : list Q) :
  blink_inv ears st ->
  blink_inv (ears ++ [(Blink.left_ear f + Blink.right_ear f) / 2.0])
            (Blink.on_face f st).
Proof.
  intros [Hears Hct]. unfold blink_inv, Blink.on_face.
  rewrite fold_left_app. cbn [fold_left]. rewrite <- Hct.
  destruct (Blink.blink_update _ _) as [c t] eqn:E. cbn.
  split; [now rewrite Hears|reflexivity].
Qed.

Lemma on_frame_inv (rects : list Blink.Face) (st : Blink.State) (ears : list Q) :
  blink_inv ears st ->
  blink_inv (ears ++ ears_of [rects]) (Blink.on_frame rects st).
Proof.
  intro H. unfold Blink.on_frame, ears_of. cbn [List.concat].
  rewrite app_nil_r.
  set (st1 := {| Blink.counter := _ |}).
  assert (H1 : blink_inv ears st1) by exact H.
  clearbody st1. clear H st.
  revert st1 ears H1.
  induction rects as [|f fs IH]; intros st ears H; cbn [fold_left map].
  - now rewrite app_nil_r.
  - replace (ears ++ ((Blink.left_ear f + Blink.right_ear f) / 2.0)
                       :: map (fun f0 => (Blink.left_ear f0 + Blink.right_ear f0) / 2.0) fs)
      with ((ears ++ [(Blink.left_ear f + Blink.right_ear f) / 2.0])
              ++ map (fun f0 => (Blink.left_ear f0 + Blink.right_ear f0) / 2.0) fs)
      by (rewrite <- app_assoc; reflexivity).
    apply IH. now apply on_face_inv.
Qed.

Lemma ears_of_app (a b : list (list Blink.Face)) :
  ears_of (a ++ b) = ears_of a ++ ears_of b.
Proof.
  unfold ears_of. now rewrite concat_app, map_app.
Qed.

Lemma blink_run_inv (frames : list (list Blink.Face)) :
  blink_inv (ears_of frames)
            (fold_left (fun s r => Blink.on_frame r s) frames Blink.init).
Proof.
  change (ears_of frames) with (ears_of ([] ++ frames)).
  apply (fold_left_invariant (fun s seen => blink_inv (ears_of seen) s)).
  - intros o s seen H. rewrite ears_of_app. now apply on_frame_inv.
  - split; reflexivity.
Qed.

Lemma blink_run_total (frames : list (list Blink.Face)) :
  Blink.total_blinks (fold_left (fun s r => Blink.on_frame r s) frames Blink.init)
  = blink_events (ears_of frames).
Proof.
  destruct (blink_run_inv frames) as [_ H].
  rewrite <- count_blinks_events. unfold Blink.count_blinks.
  now rewrite <- H.
Qed.

(** C8 (blink_detection_service.py, [detect_blinks]), as amended: on every
    sequence of EAR readings the debounce counter counts one blink at each
    place where EAR has been below 0.22 for at least two consecutive
    readings and the next reading is no longer below it, that is, at or
    above the threshold (the code's [else] branch); the number of blinks a
    run reports is that count on the readings of the frames it processed;
    and the readings 0.30, 0.18, 0.18, 0.30 give exactly one blink. *)
Theorem blink_counted_on_return_after_two_low_readings :
  (forall ears : list Q, Blink.count_blinks ears = blink_events ears) /\
  (forall display frames b g n,
      Step.metrics (Blink.detect_blinks true display frames)
      = Step.BlinkMetrics b g n ->
      b = blink_events (ears_of (processed display frames))) /\
  Blink.count_blinks [0.30; 0.18; 0.18; 0.30] = 1%nat.
Proof.
  split; [exact count_blinks_events|]. split; [|reflexivity].
  intros display frames b g n.
  unfold Blink.detect_blinks. cbn [negb].
  destruct (capture_loop display Blink.on_frame frames Blink.init) as [st|e] eqn:E.
  - apply capture_loop_fold in E. cbn [Step.metrics].
    intro H. injection H as Hb _ _. subst b st.
    apply blink_run_total.
  - cbn. discriminate.
Qed.

Lemma blink_sample_one_blink :
  Step.metrics (Blink.detect_blinks true false blink_sample)
  = Step.BlinkMetrics 1 4 4 /\
  1%nat = blink_events (ears_of (processed false blink_sample)).
Proof.
  split; [reflexivity|].
  exact (proj1 (proj2 blink_counted_on_return_after_two_low_readings)
               false blink_sample 1%nat 4%nat 4%nat eq_refl).
Defined.

(** C8 as stated fails on a reading that is exactly the threshold: after
    two low readings the reading 0.22 is not above the threshold, and the
    step counts a blink. *)
Lemma blink_counted_at_the_threshold :
  Step.metrics (Blink.detect_blinks true false boundary_sample)
  = Step.BlinkMetrics 1 3 3 /\
  Blink.count_blinks [0.18; 0.18; 0.22] = 1%nat /\
  forallb (fun e => negb (high e)) [0.18; 0.18; 0.22] = true /\
  strict_blink_events [0.18; 0.18; 0.22] = 0%nat.
Proof.
  repeat split.
Qed.

(** ** The depth and pose vote *)

Lemma Qltb_compat (a a' b b' : Q) : a == a' -> b == b' -> Qltb a b = Qltb a' b'.
Proof.
  intros Ha Hb. unfold Qltb. now rewrite Ha, Hb.
Qed.

Lemma py_min_compat (a a' b b' : Q) :
  a == a' -> b == b' -> py_min a b == py_min a' b'.
Proof.
  intros Ha Hb. unfold py_min. rewrite (Qltb_compat b b' a a' Hb Ha).
  now destruct (Qltb b' a').
Qed.

Lemma py_max_compat (a a' b b' : Q) :
  a == a' -> b == b' -> py_max a b == py_max a' b'.
Proof.
  intros Ha Hb. unfold py_max. rewrite (Qltb_compat a a' b b' Ha Hb).
  now destruct (Qltb a' b').
Qed.

Lemma vote_confidence (o : Midas.Obs) : snd (Midas.vote o) == frame_confidence o.
Proof.
  unfold Midas.vote, frame_confidence, Midas.liveness_decision,
    Midas.adaptive_depth_thresh, depth_score, pose_score.
  destruct (Midas.measure o) as [[[[[d e] y] p] r] fs]. cbn [snd].
  set (t := 3.0 * (0.8 + 0.4 * (Midas.brightness o / 128.0))).
  assert (Hd : py_min 1.0 (d / (t * 2))
               == py_min 1 (d / (2 * (3.0 * (0.8 + 0.4 * (Midas.brightness o / 128)))))).
  { apply py_min_compat; [reflexivity|].
    subst t. apply Qdiv_comp; [reflexivity|]. field. }
  assert (He : py_max 0.0 (1.0 - e / 12.0) == py_max 0 (1 - e / 12.0)).
  { apply py_max_compat; [reflexivity|]. field. }
  rewrite Hd, He. ring.
Qed.

Lemma midas_scores_inv (maxlen : nat) (os : list Midas.Obs) :
  forall st seen,
    Forall2 (fun o c => c == frame_confidence o) seen (Midas.confidence_scores st) ->
    Forall2 (fun o c => c == frame_confidence o) (seen ++ os)
      (Midas.confidence_scores
         (fold_left (fun s o => Midas.on_frame maxlen o s) os st)).
Proof.
  induction os as [|o os IH]; intros st seen H; cbn [fold_left].
  - now rewrite app_nil_r.
  - replace (seen ++ o :: os) with ((seen ++ [o]) ++ os)
      by (rewrite <- app_assoc; reflexivity).
    apply IH. unfold Midas.on_frame.
    pose proof (vote_confidence o) as Hv.
    destruct (Midas.vote o) as [live conf]. cbn [snd] in Hv.
    cbn [Midas.confidence_scores].
    apply Forall2_app; [assumption|]. constructor; [assumption|constructor].
Qed.

(** C6 (midas_liveness_service.py, [liveness_decision] and the vote in
    [run_liveness_check]), as amended: for every processed frame the
    per-frame confidence equals 0.4 * depthScore + 0.3 * poseScore
    + 0.3 * 0.5, with depthScore = min(1, depthStd / (2 * depthThresh)),
    poseScore = max(0, 1 - reprojErr / 12.0) and
    depthThresh = 3.0 * (0.8 + 0.4 * brightness / 128); the motion score is
    the constant 0.5, and yaw, pitch and roll do not enter the decision. *)
Theorem frame_confidence_has_constant_motion_score :
  (forall maxlen frames st,
      capture_loop true (Midas.on_frame maxlen) frames Midas.init = inl st ->
      Forall2 (fun o c => c == frame_confidence o)
              (processed true frames) (Midas.confidence_scores st)) /\
  (forall d e y p r y' p' r' fs t m,
      Midas.liveness_decision d e y p r fs t m
      = Midas.liveness_decision d e y' p' r' fs t m).
Proof.
  split; [|reflexivity].
  intros maxlen frames st H.
  apply capture_loop_fold in H. subst st.
  apply (midas_scores_inv maxlen (processed true frames) Midas.init []).
  constructor.
Qed.

Lemma frame_confidence_sample :
  exists st,
    capture_loop true (Midas.on_frame 150) (midas_sample 2 1) Midas.init = inl st /\
    Forall2 (fun o c => c == frame_confidence o)
            (processed true (midas_sample 2 1)) (Midas.confidence_scores st).
Proof.
  eexists. split; [reflexivity|].
  exact (proj1 frame_confidence_has_constant_motion_score
               150%nat (midas_sample 2 1) _ eq_refl).
Defined.

(** C6 as stated fails on the first frame of a run: a motion score taken
    from the variance of the pose angles (the legacy stand-alone check) is
    0 there, the service adds 0.3 * 0.5. *)
Lemma motion_score_is_not_from_variance :
  let o := face_frame 6 in
  let '(d, e, y, p, r, _) := Midas.measure o in
  let t := 3.0 * (0.8 + 0.4 * (Midas.brightness o / 128)) in
  fst (Legacy.motion_conf Legacy.init y p r 0.2) == 0 /\
  0.4 * depth_score d t + 0.3 * pose_score e
    + 0.3 * fst (Legacy.motion_conf Legacy.init y p r 0.2)
  < snd (Midas.vote o).
Proof.
  vm_compute. split; reflexivity.
Qed.

(** ** The depth and pose check as it runs *)

(** The loop of the depth and pose check hands back the state it was
    given, or raises. *)
Lemma midas_loop_state (frames : list (Capture Midas.Obs)) :
  forall st st', Midas.loop frames st = inl st' -> st' = st.
Proof.
  induction frames as [|[|o q|e] fs IH]; intros st st' H; cbn [Midas.loop] in H.
  - now injection H as <-.
  - now apply IH.
  - discriminate H.
  - discriminate H.
Qed.

Lemma midas_never_passes (loaded : bool) (duration : nat) (display : bool)
    (frames : list (Capture Midas.Obs)) :
  exists msg err,
    Midas.run_liveness_check loaded duration display frames
    = Step.failure msg err.
Proof.
  unfold Midas.run_liveness_check.
  destruct loaded; cbn [negb]; [|do 2 eexists; reflexivity].
  destruct (Midas.loop frames Midas.init) as [st|e] eqn:E;
    [|do 2 eexists; reflexivity].
  apply midas_loop_state in E. subst st.
  do 2 eexists. reflexivity.
Qed.

(** C7 (midas_liveness_service.py, [run_liveness_check]): the decision
    [live_votes / total_votes > 0.6] is never taken.  The name [torch] is
    not bound in [run_liveness_check], so the first frame that is
    delivered ends the check in its [except] clause, and without a frame
    the vote ratio is 0/0.  Whatever the camera shows, the check returns
    a failure dictionary without vote counts.  It does so on 20 frames of
    which 13 would vote live, a ratio of 0.65. *)
Theorem depth_pose_check_never_votes :
  (forall loaded duration display frames,
      let d := Midas.run_liveness_check loaded duration display frames in
      Step.success d = false
      /\ Step.metrics d = Step.NoMetrics
      /\ exists e, Step.error d = Some e)
  /\ (forall duration display o q rest,
        Midas.run_liveness_check true duration display (Frame o q :: rest)
        = Step.failure
            "2D/3D liveness check failed: name 'torch' is not defined"
            Midas.torch_unbound)
  /\ List.length (processed true (midas_sample 13 7)) = 20%nat
  /\ count_true (map (fun o => fst (Midas.vote o))
                     (processed true (midas_sample 13 7))) = 13%nat
  /\ Step.success (Midas.run_liveness_check true 5 false (midas_sample 13 7))
     = false.
Proof.
  split; [|split; [|split; [|split]]].
  - intros loaded duration display frames d.
    destruct (midas_never_passes loaded duration display frames)
      as [msg [err H]].
    subst d. rewrite H. cbn. split; [reflexivity|].
    split; [reflexivity|]. now exists err.
  - reflexivity.
  - reflexivity.
  - vm_compute. reflexivity.
  - reflexivity.
Qed.

(** ** Person verification *)

Lemma one_face_scores_app (a b : list PersonVerification.Faces) :
  one_face_scores (a ++ b) = one_face_scores a ++ one_face_scores b.
Proof.
  unfold one_face_scores. apply flat_map_app.
Qed.

Lemma person_frame_inv (faces : PersonVerification.Faces)
    (st : PersonVerification.State) (seen : list PersonVerification.Faces) :
  person_inv seen st ->
  person_inv (seen ++ [faces]) (PersonVerification.on_frame faces st).
Proof.
  intros (Hv & Hs & Hn). unfold person_inv.
  rewrite existsb_app, one_face_scores_app, length_app, <- Hv, <- Hs, <- Hn.
  cbn [existsb List.length]. rewrite orb_false_r, Nat.add_1_r.
  destruct faces as [|s [|s' faces]]; cbn.
  - now rewrite orb_false_r, app_nil_r.
  - destruct (Qltb 0.5 s); [now rewrite orb_true_r|now rewrite orb_false_r].
  - now rewrite orb_false_r, app_nil_r.
Qed.

Lemma person_run_inv (frames : list PersonVerification.Faces) :
  person_inv frames
    (fold_left (fun s o => PersonVerification.on_frame o s) frames
               PersonVerification.init).
Proof.
  change frames with ([] ++ frames) at 1.
  apply (fold_left_invariant (fun s seen => person_inv seen s)).
  - intros o s seen H. now apply person_frame_inv.
  - repeat split.
Qed.

(** C3 (person_verification_service.py, [verify_person]), as amended: a
    frame with no face or with several faces does not end the step.  It
    only advances the frame counter; the frames after it are processed
    and the scores are those of the one-face frames.  Over all runs, the
    step passes exactly when the model is loaded, the reference image
    shows exactly one face, no exception ends the loop and some one-face
    frame that was processed has a similarity above 0.5. *)
Theorem wrong_face_count_does_not_end_verification :
  (forall faces st,
      List.length faces <> 1%nat ->
      PersonVerification.on_frame faces st
      = {| PersonVerification.verified := PersonVerification.verified st;
           PersonVerification.confidence_scores :=
             PersonVerification.confidence_scores st;
           PersonVerification.frame_count :=
             S (PersonVerification.frame_count st) |}) /\
  (forall loaded ref_faces display frames,
      let d := PersonVerification.verify_person loaded ref_faces display
                 frames in
      (Step.success d = true <->
         loaded = true /\ ref_faces = 1%nat
         /\ raised display frames = None
         /\ existsb matched (processed display frames) = true) /\
      (loaded = true -> ref_faces = 1%nat -> raised display frames = None ->
       Step.metrics d
       = Step.PersonMetrics (List.length (processed display frames))
                            (one_face_scores (processed display frames)) /\
       Step.error d = None)).
Proof.
  split.
  - intros [|s [|s' faces]] st H; cbn in *; congruence.
  - intros loaded ref_faces display frames d. subst d.
    unfold PersonVerification.verify_person.
    destruct loaded; cbn [negb].
    2:{ split; [|discriminate]. cbn. split; [discriminate|].
        intros [H _]; discriminate H. }
    destruct (Nat.eqb_spec ref_faces 1) as [->|Hne]; cbn [negb].
    2:{ split; [|intros _ H; now elim Hne]. cbn. split; [discriminate|].
        intros [_ [H _]]. now elim Hne. }
    rewrite capture_loop_raised.
    destruct (raised display frames) as [e|].
    + split; [|intros _ _ H; discriminate H]. cbn.
      split; [discriminate|]. intros [_ [_ [H _]]]. discriminate H.
    + destruct (person_run_inv (processed display frames)) as (Hv & Hs & Hn).
      cbn [Step.success Step.metrics Step.error].
      rewrite Hv, Hs, Hn. split.
      * split; [intro H; now repeat split|]. now intros [_ [_ [_ H]]].
      * intros _ _ _. now split.
Qed.

Lemma no_face_frame_is_passed_over :
  raised false person_sample = None /\
  (Step.success (PersonVerification.verify_person true 1 false person_sample)
   = true <->
   true = true /\ 1%nat = 1%nat /\ raised false person_sample = None
   /\ existsb matched (processed false person_sample) = true) /\
  Step.metrics (PersonVerification.verify_person true 1 false person_sample)
  = Step.PersonMetrics (List.length (processed false person_sample))
                       (one_face_scores (processed false person_sample)).
Proof.
  split; [reflexivity|].
  destruct (proj2 wrong_face_count_does_not_end_verification
                  true 1%nat false person_sample) as (H1 & H2).
  split; [exact H1|].
  exact (proj1 (H2 eq_refl eq_refl eq_refl)).
Defined.

(** C3 as stated fails: the first frame shows no face, yet the second frame
    is processed and the step passes. *)
Lemma first_faceless_frame_does_not_fail_the_step :
  processed false person_sample = [[]; [0.9]] /\
  Step.success (PersonVerification.verify_person true 1 false person_sample)
  = true /\
  Step.metrics (PersonVerification.verify_person true 1 false person_sample)
  = Step.PersonMetrics 2 [0.9].
Proof.
  repeat split.
Qed.

(** ** Lists, loops and bounds *)

Lemma Qlen_nonneg {A : Type} (l : list A) : 0 <= Qlen l.
Proof.
  unfold Qlen. change 0 with (inject_Z 0). rewrite <- Zle_Qle. lia.
Qed.

Lemma Forall_snoc {A : Type} (P : A -> Prop) (l : list A) (x : A) :
  Forall P l -> P x -> Forall P (l ++ [x]).
Proof.
  intros Hl Hx. apply Forall_app. split; [assumption|now constructor].
Qed.

(** A loop whose body keeps [P] keeps it up to the exit, provided the body
    does so on the frames of the list. *)
Lemma capture_loop_keeps {A S : Type} (quit : bool) (body : A -> S -> S)
    (ok : A -> Prop) (P : S -> Prop) :
  (forall o s, ok o -> P s -> P (body o s)) ->
  forall frames st st',
    (forall o q, In (Frame o q) frames -> ok o) ->
    P st -> capture_loop quit body frames st = inl st' -> P st'.
Proof.
  intros Hstep frames. induction frames as [|f fs IH]; intros st st' Hok HP H.
  - cbn in H. now inversion H; subst.
  - assert (Hfs : forall o q, In (Frame o q) fs -> ok o).
    { intros o q Hin. apply (Hok o q). now right. }
    destruct f as [|obs q|e]; cbn in H.
    + now apply (IH st st').
    + assert (HP' : P (body obs st)).
      { apply Hstep; [|assumption]. apply (Hok obs q). now left. }
      destruct (quit && q).
      * now inversion H; subst.
      * now apply (IH (body obs st) st').
    + discriminate.
Qed.

Lemma py_min_range (a x : Q) : 0 <= a -> 0 <= x -> 0 <= py_min a x <= a.
Proof.
  intros Ha Hx. destruct (py_min_spec a x) as [[H ->]|[H ->]]; lra.
Qed.

(** ** The orchestrator *)

Lemma extend_extend (s : Camera.Sys) (a b : list Event) :
  extend (extend s a) b = extend s (a ++ b).
Proof.
  unfold extend. cbn. now rewrite app_assoc.
Qed.

Lemma extend_nil (s : Camera.Sys) : extend s [] = s.
Proof.
  destruct s. unfold extend. cbn. now rewrite app_nil_r.
Qed.

Lemma run_stage_eq (st : Stage) (results : Results.t) (acc : Liveness.Acc)
    (s : Camera.Sys) :
  Liveness.run_stage (stage_name st) (stage_label st) (stage_entry st)
                     (stage_outcome st) results acc s
  = if failing st
    then (inr (Liveness.Return (Results.with_error (stage_label st) results)),
          extend s [StepStarted (stage_name st)])
    else (inl (apply_stage acc st), extend s [StepStarted (stage_name st)]).
Proof.
  unfold Liveness.run_stage, failing, apply_stage, Liveness.bind, Liveness.emit.
  destruct (stage_outcome st) as [d|e]; [|reflexivity].
  destruct (Step.success d); reflexivity.
Qed.

(** No step fails: all are started and the accumulators take them all. *)
Lemma run_stages_pass (l : list Stage) (results : Results.t) :
  forall acc s,
    forallb (fun st => negb (failing st)) l = true ->
    run_stages l results acc s
    = (inl (fold_left apply_stage l acc),
       extend s (map (fun st => StepStarted (stage_name st)) l)).
Proof.
  induction l as [|st tl IH]; intros acc s H.
  - cbn. now rewrite extend_nil.
  - cbn in H. apply andb_true_iff in H. destruct H as [Hst Htl].
    apply negb_true_iff in Hst.
    cbn [run_stages]. unfold Liveness.bind at 1.
    rewrite run_stage_eq, Hst, (IH _ _ Htl), extend_extend. reflexivity.
Qed.

(** A step fails after steps that do not: the run ends there. *)
Lemma run_stages_fail (pre : list Stage) (x : Stage) (post : list Stage)
    (results : Results.t) :
  forall acc s,
    forallb (fun st => negb (failing st)) pre = true ->
    failing x = true ->
    run_stages (pre ++ x :: post) results acc s
    = (inr (Liveness.Return (Results.with_error (stage_label x) results)),
       extend s (map (fun st => StepStarted (stage_name st)) (pre ++ [x]))).
Proof.
  induction pre as [|st tl IH]; intros acc s H Hx.
  - cbn [app run_stages]. unfold Liveness.bind.
    now rewrite run_stage_eq, Hx.
  - cbn in H. apply andb_true_iff in H. destruct H as [Hst Htl].
    apply negb_true_iff in Hst.
    cbn [app run_stages]. unfold Liveness.bind at 1.
    rewrite run_stage_eq, Hst, (IH _ _ Htl Hx), extend_extend. reflexivity.
Qed.

(** Either no step fails or there is a first one that does. *)
Lemma first_failing (l : list Stage) :
  forallb (fun st => negb (failing st)) l = true \/
  exists pre x post,
    l = pre ++ x :: post /\
    forallb (fun st => negb (failing st)) pre = true /\ failing x = true.
Proof.
  induction l as [|st tl IH].
  - now left.
  - destruct (failing st) eqn:Hst.
    + right. exists [], st, tl. repeat split; assumption.
    + destruct IH as [IH|(pre & x & post & -> & Hpre & Hx)].
      * left. cbn. now rewrite Hst.
      * right. exists (st :: pre), x, post. repeat split; [|assumption].
        cbn. now rewrite Hst.
Qed.

(** The [try] block with a camera is the list of its steps followed by the
    final update. *)
Lemma detection_stages (cfg : Liveness.Config) (c : Camera.VideoCapture)
    (person : option Liveness.Outcome) (midas blink captcha : Liveness.Outcome)
    (s : Camera.Sys) :
  Liveness.detection cfg (Some c) person midas blink captcha s
  = match run_stages (stages person midas blink captcha) Results.initial
                     (start_acc person) s with
    | (inl acc, s') => (inl (Liveness.finish cfg Results.initial acc), s')
    | (inr x, s') => (inr x, s')
    end.
Proof.
  unfold Liveness.detection, stages, start_acc.
  destruct person as [o|]; cbn [app run_stages stage_name stage_label
                                 stage_entry stage_outcome];
    unfold Liveness.bind, Liveness.ret;
    repeat match goal with
           | |- context [Liveness.run_stage ?n ?l ?e ?o ?r ?a ?s] =>
               destruct (Liveness.run_stage n l e o r a s) as [[?acc|?x] ?s]
           end; reflexivity.
Qed.

Lemma orchestrate_eq (cfg : Liveness.Config) (o : Camera.OpenOutcome)
    (person : option Liveness.Outcome) (midas blink captcha : Liveness.Outcome)
    (s : Camera.Sys) :
  Liveness.orchestrate cfg o person midas blink captcha s
  = let s1 := snd (Camera.get_camera o s) in
    match fst (Camera.get_camera o s) with
    | None =>
        (Results.with_error "Camera not available" Results.initial,
         Camera.release_camera s1)
    | Some _ =>
        match run_stages (stages person midas blink captcha) Results.initial
                         (start_acc person) s1 with
        | (inl acc, s2) =>
            (Liveness.finish cfg Results.initial acc, Camera.release_camera s2)
        | (inr (Liveness.Return r), s2) => (r, Camera.release_camera s2)
        | (inr (Liveness.Raise e), s2) =>
            (Results.with_error e Results.initial, Camera.release_camera s2)
        end
    end.
Proof.
  unfold Liveness.orchestrate.
  destruct (Camera.get_camera o s) as [[c|] s1]; cbn [fst snd].
  - rewrite detection_stages.
    destruct (run_stages _ _ _ s1) as [[acc|[r|e]] s2]; reflexivity.
  - reflexivity.
Qed.

(** The names of the entries the accumulators hold after the steps. *)
Lemma names_after_stages (l : list Stage) :
  forall acc,
    map fst (Liveness.step_results (fold_left apply_stage l acc))
    = map fst (Liveness.step_results acc) ++ map stage_name l.
Proof.
  induction l as [|st tl IH]; intro acc; cbn [fold_left map].
  - now rewrite app_nil_r.
  - rewrite IH. unfold apply_stage.
    destruct (stage_outcome st); cbn; rewrite map_app, <- app_assoc; reflexivity.
Qed.



(** ** The event log *)

Lemma started_app (a b : list Event) : started (a ++ b) = started a ++ started b.
Proof.
  unfold started. apply flat_map_app.
Qed.

Lemma started_names (l : list Stage) :
  started (map (fun st => StepStarted (stage_name st)) l) = map stage_name l.
Proof.
  induction l as [|st tl IH]; [reflexivity|]. cbn. now rewrite <- IH.
Qed.

Lemma started_get_camera (o : Camera.OpenOutcome) (s : Camera.Sys) :
  started (Camera.log (snd (Camera.get_camera o s))) = started (Camera.log s).
Proof.
  unfold Camera.get_camera.
  destruct (Camera.needs_open s); [|reflexivity].
  destruct o; cbn; try reflexivity.
  rewrite started_app. cbn. now rewrite app_nil_r.
Qed.

Lemma started_release (s : Camera.Sys) :
  started (Camera.log (Camera.release_camera s)) = started (Camera.log s).
Proof.
  unfold Camera.release_camera.
  destruct (Camera.camera s); [|reflexivity].
  cbn. rewrite started_app. cbn. now rewrite app_nil_r.
Qed.

Lemma stage_label_of (person : option Liveness.Outcome)
    (midas blink captcha : Liveness.Outcome) (st : Stage) :
  In st (stages person midas blink captcha) ->
  In (stage_name st, stage_label st) step_labels.
Proof.
  unfold stages, step_labels. intro H.
  destruct person; cbn in H;
    repeat (destruct H as [<-|H]; [cbn; tauto|]); destruct H.
Qed.

(** No result of the depth and pose check lets the sequence go on. *)
Lemma midas_stage_fails (cfg : Liveness.Config) (w : Liveness.World) :
  failing (mkStage "midas_liveness" "2D/3D liveness check failed"
                   Liveness.plain_entry (Liveness.midas_outcome cfg w))
  = true.
Proof.
  unfold failing, Liveness.midas_outcome. cbn [stage_outcome].
  destruct (midas_never_passes (Liveness.midas_loaded w)
              (Liveness.midas_liveness_duration cfg)
              (Liveness.enable_display cfg) (Liveness.midas_frames w))
    as [msg [err ->]].
  reflexivity.
Qed.


(** C2 (liveness_service.py, [run_complete_liveness_detection], the
    fail-fast returns), as amended: when a step returns [passed = false]
    the run ends there.  No later step is started, and the result is the
    initial [results] with [success = false], [is_live = false] and [error]
    set to the fixed label of the failing step (for instance
    "2D/3D liveness check failed"), not to the message of the step. *)
Theorem failed_step_ends_the_run :
  forall cfg o person midas blink captcha s pre x post,
    acquired o s = true ->
    stages person midas blink captcha = pre ++ x :: post ->
    forallb (fun st => negb (failing st)) pre = true ->
    failing x = true ->
    let run := Liveness.orchestrate cfg o person midas blink captcha s in
    Results.success (fst run) = false /\
    Results.is_live (fst run) = false /\
    Results.error (fst run) = Some (stage_label x) /\
    In (stage_name x, stage_label x) step_labels /\
    started (Camera.log (snd run))
    = started (Camera.log s) ++ map stage_name (pre ++ [x]).
Proof.
  intros cfg o person midas blink captcha s pre x post Hcam Hl Hpre Hx run.
  subst run. rewrite orchestrate_eq. unfold acquired in Hcam. cbv zeta.
  destruct (fst (Camera.get_camera o s)) as [c|]; [|discriminate].
  rewrite Hl, (run_stages_fail _ _ _ _ _ _ Hpre Hx). cbn [fst snd].
  repeat split.
  - apply (stage_label_of person midas blink captcha). rewrite Hl.
    apply in_or_app. right. now left.
  - rewrite started_release. unfold extend. cbn [Camera.log].
    now rewrite started_app, started_names, started_get_camera.
Qed.

Lemma staring_run_ends_at_depth_check :
  Results.success (fst staring_run) = false /\
  Results.is_live (fst staring_run) = false /\
  Results.error (fst staring_run)
  = Some "2D/3D liveness check failed"%string /\
  started (Camera.log (snd staring_run))
  = ["person_verification"; "midas_liveness"]%string.
Proof.
  pose (cfg := Liveness.config false).
  pose (p := Liveness.person_outcome cfg staring_world (Some "abc"%string)).
  pose (m := Liveness.midas_outcome cfg staring_world).
  pose (b := Liveness.blink_outcome cfg staring_world).
  pose (c := Liveness.captcha_outcome cfg staring_world).
  destruct (failed_step_ends_the_run cfg Camera.Opens p m b c Camera.fresh
              [mkStage "person_verification" "Person verification failed"
                       Liveness.plain_entry
                       (Liveness.Returned
                          (PersonVerification.verify_person true 1 false
                             person_sample))]
              (mkStage "midas_liveness" "2D/3D liveness check failed"
                       Liveness.plain_entry m)
              [mkStage "blink_detection" "Blink detection failed"
                       Liveness.blink_entry b;
               mkStage "mouth_captcha" "Voice captcha verification failed"
                       Liveness.captcha_entry c]
              eq_refl eq_refl eq_refl eq_refl)
    as (H1 & H2 & H3 & _ & H4).
  repeat split; assumption.
Defined.

(** C2 as stated fails: the depth and pose check returns [passed = false]
    with its own message, and the run reports [success = false] and the
    label of the step. *)
Lemma failed_step_reports_no_success :
  Step.success staring_depth_check = false /\
  Step.message staring_depth_check
  = "2D/3D liveness check failed: name 'torch' is not defined"%string /\
  Results.success (fst staring_run) = false /\
  Results.error (fst staring_run)
  = Some "2D/3D liveness check failed"%string.
Proof.
  repeat split.
Qed.

(** C10 (liveness_service.py, [run_complete_liveness_detection], the
    initial [results] and the fail-fast returns): a run that ends at a
    failed step returns an empty [steps] map, [confidence = 0.0] and
    [is_live = false], without [passed_steps] and [total_steps]; and a
    result in which [steps], [passed_steps] or [total_steps] is populated
    comes from a run that reached the final update with all four entries
    written. *)
Theorem aborted_run_reports_no_steps :
  forall cfg o person midas blink captcha s,
    let r := fst (Liveness.orchestrate cfg o person midas blink captcha s) in
    (forall pre x post,
        acquired o s = true ->
        stages person midas blink captcha = pre ++ x :: post ->
        forallb (fun st => negb (failing st)) pre = true ->
        failing x = true ->
        Results.steps r = [] /\ Results.confidence r == 0 /\
        Results.is_live r = false /\
        Results.passed_steps r = None /\ Results.total_steps r = None) /\
    (Results.steps r <> [] \/ Results.passed_steps r <> None
     \/ Results.total_steps r <> None ->
     Results.success r = true /\
     forallb (fun st => negb (failing st)) (stages person midas blink captcha)
     = true /\
     map fst (Results.steps r)
     = ["person_verification"; "midas_liveness"; "blink_detection";
        "mouth_captcha"]%string /\
     Results.total_steps r = Some 4%nat).
Proof.
  intros cfg o person midas blink captcha s r. subst r.
  rewrite orchestrate_eq. unfold acquired. cbv zeta. split.
  - intros pre x post Hcam Hl Hpre Hx.
    destruct (fst (Camera.get_camera o s)) as [c|]; [|discriminate].
    rewrite Hl, (run_stages_fail _ _ _ _ _ _ Hpre Hx). cbn.
    repeat split; reflexivity.
  - destruct (fst (Camera.get_camera o s)) as [c|].
    + destruct (first_failing (stages person midas blink captcha))
        as [Hp|(pre & x & post & Hl & Hpre & Hx)].
      * rewrite (run_stages_pass _ _ _ _ Hp). cbn [fst]. intros _.
        repeat split; try assumption.
        cbn [Liveness.finish Results.steps]. rewrite names_after_stages.
        destruct person; reflexivity.
      * rewrite Hl, (run_stages_fail _ _ _ _ _ _ Hpre Hx). cbn.
        intros [H|[H|H]]; congruence.
    + cbn. intros [H|[H|H]]; congruence.
Qed.

Lemma staring_run_reports_no_steps :
  Results.steps (fst staring_run) = [] /\
  Results.confidence (fst staring_run) == 0 /\
  Results.is_live (fst staring_run) = false /\
  Results.passed_steps (fst staring_run) = None /\
  Results.total_steps (fst staring_run) = None.
Proof.
  pose (cfg := Liveness.config false).
  pose (p := Liveness.person_outcome cfg staring_world (Some "abc"%string)).
  pose (m := Liveness.midas_outcome cfg staring_world).
  pose (b := Liveness.blink_outcome cfg staring_world).
  pose (c := Liveness.captcha_outcome cfg staring_world).
  exact (proj1 (aborted_run_reports_no_steps cfg Camera.Opens p m b c
                  Camera.fresh)
               [mkStage "person_verification" "Person verification failed"
                        Liveness.plain_entry
                        (Liveness.Returned
                           (PersonVerification.verify_person true 1 false
                              person_sample))]
               (mkStage "midas_liveness" "2D/3D liveness check failed"
                        Liveness.plain_entry m)
               [mkStage "blink_detection" "Blink detection failed"
                        Liveness.blink_entry b;
                mkStage "mouth_captcha" "Voice captcha verification failed"
                        Liveness.captcha_entry c]
               eq_refl eq_refl eq_refl eq_refl).
Defined.

(** ** The capture device *)

Lemma held_releases_app (a b : list Event) :
  held_releases (a ++ b) = (held_releases a + held_releases b)%nat.
Proof.
  unfold held_releases. now rewrite filter_app, length_app.
Qed.

Lemma release_calls_app (a b : list Event) :
  release_calls (a ++ b) = (release_calls a + release_calls b)%nat.
Proof.
  unfold release_calls. now rewrite filter_app, length_app.
Qed.

Lemma no_release_in_steps (l : list Stage) :
  held_releases (map (fun st => StepStarted (stage_name st)) l) = 0%nat /\
  release_calls (map (fun st => StepStarted (stage_name st)) l) = 0%nat.
Proof.
  induction l as [|st tl [IH1 IH2]]; split; try reflexivity; assumption.
Qed.

(** The state after a run: the steps started are logged after
    [get_camera], then [release_camera] runs. *)
Lemma orchestrate_state (cfg : Liveness.Config) (o : Camera.OpenOutcome)
    (person : option Liveness.Outcome) (midas blink captcha : Liveness.Outcome)
    (s : Camera.Sys) :
  exists l : list Stage,
    snd (Liveness.orchestrate cfg o person midas blink captcha s)
    = Camera.release_camera
        (extend (snd (Camera.get_camera o s))
                (if acquired o s
                 then map (fun st => StepStarted (stage_name st)) l
                 else [])).
Proof.
  rewrite orchestrate_eq. unfold acquired. cbv zeta.
  destruct (fst (Camera.get_camera o s)) as [c|].
  - destruct (first_failing (stages person midas blink captcha))
      as [Hp|(pre & x & post & Hl & Hpre & Hx)].
    + exists (stages person midas blink captcha).
      now rewrite (run_stages_pass _ _ _ _ Hp).
    + exists (pre ++ [x]).
      now rewrite Hl, (run_stages_fail _ _ _ _ _ _ Hpre Hx).
  - exists []. now rewrite extend_nil.
Qed.

(** C5 (liveness_service.py, the [finally] clause, and camera_service.py,
    [release_camera]), as amended: the device is held after [get_camera]
    exactly when the run acquires the camera.  In every such run, whatever
    the steps do, the held device is released exactly once, as the last
    event of the run; in a run in which the camera is not available the
    device is never held and no held device is released.  In every run
    [release()] is called at most once and no handle is left in the
    service. *)
Theorem held_device_released_exactly_once :
  forall cfg o person midas blink captcha c0,
    let s0 := {| Camera.camera := c0; Camera.log := [] |} in
    let s' := snd (Liveness.orchestrate cfg o person midas blink captcha s0) in
    Camera.held (snd (Camera.get_camera o s0)) = acquired o s0 /\
    Camera.camera s' = None /\
    (release_calls (Camera.log s') <= 1)%nat /\
    held_releases (Camera.log s') = (if acquired o s0 then 1 else 0)%nat /\
    (acquired o s0 = true ->
     exists evs, Camera.log s' = evs ++ [DeviceReleased true] /\
                 held_releases evs = 0%nat).
Proof.
  intros cfg o person midas blink captcha c0 s0 s'.
  destruct (orchestrate_state cfg o person midas blink captcha s0) as [l Hl].
  fold s' in Hl. clearbody s'. subst s'.
  split; [subst s0; destruct c0 as [[[|]]|]; destruct o; reflexivity|].
  destruct (no_release_in_steps l) as [Hh Hr].
  set (evs := map (fun st => StepStarted (stage_name st)) l) in *.
  clearbody evs. subst s0.
  destruct c0 as [[[|]]|]; destruct o as [| |e];
    cbn -[held_releases release_calls app];
    rewrite ?held_releases_app, ?release_calls_app, ?Hh, ?Hr;
    (split; [reflexivity|]); (split; [cbn; lia|]); (split; [reflexivity|]);
    intro H; try discriminate H.
  all: eexists; split; [reflexivity|].
  all: rewrite ?held_releases_app, ?Hh; reflexivity.
Qed.

Lemma live_run_releases_once :
  Camera.camera (snd live_run) = None /\
  held_releases (Camera.log (snd live_run)) = 1%nat /\
  (exists evs, Camera.log (snd live_run) = evs ++ [DeviceReleased true] /\
               held_releases evs = 0%nat).
Proof.
  pose (cfg := Liveness.config false).
  destruct (held_device_released_exactly_once cfg Camera.Opens
              (Liveness.person_outcome cfg live_world None)
              (Liveness.midas_outcome cfg live_world)
              (Liveness.blink_outcome cfg live_world)
              (Liveness.captcha_outcome cfg live_world) None)
    as (_ & H1 & _ & H3 & H4).
  split; [exact H1|]. split; [exact H3|]. exact (H4 eq_refl).
Defined.

(** C5 as stated fails when the camera is not available.  With a handle
    that does not open the device is never held, and the run releases no
    held device; when [cv2.VideoCapture] raises there is no handle and
    [release()] is not called at all. *)
Lemma unavailable_camera_is_never_held :
  (Results.error (fst dark_run) = Some "Camera not available"%string /\
   Camera.log (snd dark_run) = [DeviceReleased false] /\
   held_releases (Camera.log (snd dark_run)) = 0%nat) /\
  (Results.error (fst broken_run) = Some "Camera not available"%string /\
   Camera.log (snd broken_run) = [] /\
   release_calls (Camera.log (snd broken_run)) = 0%nat).
Proof.
  repeat split.
Qed.

(** ** The uploaded-audio captcha *)

(** C9 (mouth_captcha_service.py, [verify_uploaded_audio]), as amended:
    when the expression given by the caller cannot be parsed there is no
    expected answer; the result carries a message and passes exactly when
    the models are loaded, the recording can be read and some number is
    recognised in it, with confidence 0.5; otherwise it is a failed result
    with confidence 0.0. *)
Theorem unparseable_expression_checks_number_presence :
  forall P loaded dr audio e,
    MouthCaptcha.truthy (Some e) = true ->
    MouthCaptcha.parse_expression e = None ->
    let r := MouthCaptcha.verify_uploaded_audio P loaded dr audio (Some e) in
    (Step.success r = true <->
       loaded = true /\
       exists partials final,
         audio = MouthCaptcha.Speech partials final /\
         MouthCaptcha.truthy
           (MouthCaptcha.recognize P (upload_transcript partials final)) = true) /\
    Step.confidence r == (if Step.success r then 0.5 else 0) /\
    (Step.success r = false ->
     Step.error r <> None \/
     Step.message r = "Voice captcha (upload) failed"%string) /\
    (forall q a t n, Step.metrics r = Step.UploadMetrics q a t n -> a = None).
Proof.
  intros P loaded dr audio e He Hp r. subst r.
  unfold MouthCaptcha.verify_uploaded_audio. rewrite He, Hp.
  destruct loaded; cbn [negb].
  - destruct audio as [err|partials final].
    + cbn. split; [|split; [reflexivity|split]].
      * split; [discriminate|]. intros (_ & p & f & H & _). discriminate.
      * intros _. left. discriminate.
      * discriminate.
    + cbn [option_map]. fold (upload_transcript partials final).
      destruct (MouthCaptcha.truthy
                  (MouthCaptcha.recognize P (upload_transcript partials final)))
        eqn:Ht; cbn [Step.success Step.confidence Step.error Step.message
                     Step.metrics];
        (split; [|split; [reflexivity|split]]).
      * split; [|reflexivity]. intros _. split; [reflexivity|].
        exists partials, final. now split.
      * discriminate.
      * intros q a t n H. now injection H as _ <- _ _.
      * split; [discriminate|].
        intros (_ & p & f & H & Hr). injection H as <- <-. congruence.
      * intros _. now right.
      * intros q a t n H. now injection H as _ <- _ _.
  - cbn. split; [|split; [reflexivity|split]].
    + split; [discriminate|]. intros (H & _). discriminate.
    + intros _. left. discriminate.
    + discriminate.
Qed.

Lemma malformed_expression_sample :
  MouthCaptcha.truthy (Some "two + two"%string) = true /\
  MouthCaptcha.parse_expression "two + two" = None /\
  (Step.success (MouthCaptcha.verify_uploaded_audio sample_providers true
                   any_draw five_audio (Some "two + two"%string)) = true <->
   true = true /\
   exists partials final,
     five_audio = MouthCaptcha.Speech partials final /\
     MouthCaptcha.truthy
       (MouthCaptcha.recognize sample_providers
          (upload_transcript partials final)) = true).
Proof.
  split; [reflexivity|]. split; [reflexivity|].
  exact (proj1 (unparseable_expression_checks_number_presence sample_providers
                  true any_draw five_audio "two + two"%string
                  eq_refl eq_refl)).
Defined.

(** C9 as stated fails: the expression "two + two" cannot be parsed, "5"
    is heard on the recording, and the result is a success. *)
Lemma malformed_expression_can_pass :
  MouthCaptcha.parse_expression "two + two" = None /\
  Step.success (MouthCaptcha.verify_uploaded_audio sample_providers true
                  any_draw five_audio (Some "two + two"%string)) = true /\
  Step.message (MouthCaptcha.verify_uploaded_audio sample_providers true
                  any_draw five_audio (Some "two + two"%string))
  = "Voice captcha (upload) completed successfully"%string.
Proof.
  repeat split.
Qed.

(** ** The confidence of the person step *)

(** C4 (person_verification_service.py, [verify_person], the returned
    confidence): the step returns the mean of the raw cosine
    similarities, where the other steps scale their confidence into
    [0, 1].  One frame showing one face whose similarity with the
    reference is -0.5 gives a confidence of -0.5, below 0. *)
Lemma person_confidence_can_be_negative :
  Step.metrics (PersonVerification.verify_person true 1 false stranger_sample)
  = Step.PersonMetrics 1 [-0.5] /\
  Step.confidence (PersonVerification.verify_person true 1 false stranger_sample)
  < 0.
Proof.
  split; reflexivity.
Qed.

(** ** Further properties *)

(** X1 (mouth_captcha_service.py, [run_captcha_verification], captcha
    generation): for operands drawn from their ranges, [a] in [20, 90] and
    [b] in [0, 10], the expected answer lies in [0, 99]. *)
Theorem captcha_answer_within_two_digits :
  forall d : MouthCaptcha.Draw,
    (20 <= MouthCaptcha.draw_a d <= 90)%Z ->
    (0 <= MouthCaptcha.draw_b d <= 10)%Z ->
    (0 <= MouthCaptcha.captcha_value d <= 99)%Z.
Proof.
  intros [a b op] Ha Hb. unfold MouthCaptcha.captcha_value. cbn in *.
  destruct op.
  - destruct (a + b <? 0)%Z eqn:E0; [apply Z.ltb_lt in E0; lia|].
    destruct (99 <? a + b)%Z eqn:E1.
    + pose proof (Z.mod_pos_bound (a + b) 100 ltac:(lia)). lia.
    + apply Z.ltb_ge in E1. lia.
  - destruct (a - b <? 0)%Z eqn:E0; [apply Z.ltb_lt in E0; lia|].
    destruct (99 <? a - b)%Z eqn:E1.
    + apply Z.ltb_lt in E1. lia.
    + apply Z.ltb_ge in E1. lia.
Qed.

Lemma captcha_answer_sample :
  (0 <= MouthCaptcha.captcha_value (Liveness.captcha_draw live_world) <= 99)%Z /\
  py_str (MouthCaptcha.captcha_value (Liveness.captcha_draw live_world))
  = "27"%string.
Proof.
  split; [|reflexivity].
  apply (captcha_answer_within_two_digits (Liveness.captcha_draw live_world));
    cbn; lia.
Defined.

(** X2 (liveness_service.py, [run_complete_liveness_detection]): whatever
    way a run ends, [is_live] is true only if at least three steps have
    passed. *)
Theorem live_needs_three_passed_steps :
  forall cfg o person midas blink captcha s,
    let r := fst (Liveness.orchestrate cfg o person midas blink captcha s) in
    Results.is_live r = true ->
    exists n, Results.passed_steps r = Some n /\ (3 <= n)%nat.
Proof.
  intros cfg o person midas blink captcha s r. subst r.
  rewrite orchestrate_eq. cbv zeta.
  destruct (fst (Camera.get_camera o s)) as [c|]; [|cbn; discriminate].
  destruct (first_failing (stages person midas blink captcha))
    as [Hp|(pre & x & post & Hl & Hpre & Hx)].
  - rewrite (run_stages_pass _ _ _ _ Hp).
    cbn [fst Liveness.finish Results.is_live Results.passed_steps].
    intro H. apply andb_true_iff in H. destruct H as [H3 _].
    apply Nat.leb_le in H3. eexists. split; [reflexivity|exact H3].
  - rewrite Hl, (run_stages_fail _ _ _ _ _ _ Hpre Hx). cbn. discriminate.
Qed.

Lemma four_passes_are_live :
  Results.is_live (fst four_passes) = true /\
  exists n, Results.passed_steps (fst four_passes) = Some n /\ (3 <= n)%nat.
Proof.
  assert (H : Results.is_live (fst four_passes) = true)
    by (vm_compute; reflexivity).
  split; [exact H|].
  exact (live_needs_three_passed_steps (Liveness.config false)
           Camera.Opens None
           (Liveness.Returned (passed_step 0.85))
           (Liveness.Returned (passed_step 0.75))
           (Liveness.Returned (passed_step 1))
           Camera.fresh H).
Defined.

(** X3 (blink_detection_service.py, [detect_blinks], result): a run that
    reports [b] blinks and [g] gaze movements passes exactly when [b >= 1]
    and [g >= 2], with confidence (min(1, b/2) + min(1, g/3)) / 2. *)
Theorem blink_step_pass_rule :
  forall loaded display frames b g n,
    Step.metrics (Blink.detect_blinks loaded display frames)
    = Step.BlinkMetrics b g n ->
    let d := Blink.detect_blinks loaded display frames in
    (Step.success d = true <-> (1 <= b)%nat /\ (2 <= g)%nat) /\
    Step.confidence d
    == (py_min 1 (inject_Z (Z.of_nat b) / 2)
        + py_min 1 (inject_Z (Z.of_nat g) / 3)) / 2.
Proof.
  intros loaded display frames b g n. unfold Blink.detect_blinks.
  destruct loaded; cbn [negb]; [|cbn; discriminate].
  destruct (capture_loop display Blink.on_frame frames Blink.init) as [st|e];
    [|cbn; discriminate].
  cbn [Step.metrics Step.success Step.confidence].
  intro H. injection H as <- <- _. split.
  - now rewrite andb_true_iff, !Nat.leb_le.
  - apply Qdiv_comp; [|reflexivity].
    apply Qplus_comp; apply py_min_compat; try reflexivity;
      apply Qdiv_comp; reflexivity.
Qed.

Lemma blink_sample_passes :
  Step.metrics (Blink.detect_blinks true false blink_sample)
  = Step.BlinkMetrics 1 4 4 /\
  (Step.success (Blink.detect_blinks true false blink_sample) = true <->
   (1 <= 1)%nat /\ (2 <= 4)%nat).
Proof.
  split; [reflexivity|].
  exact (proj1 (blink_step_pass_rule true false blink_sample 1%nat 4%nat 4%nat
                  eq_refl)).
Defined.

(** * Further properties of the services *)

(** ** The camera service under any sequence of calls *)

Lemma opens_app (a b : list Event) :
  opens (a ++ b) = (opens a + opens b)%nat.
Proof.
  unfold opens. rewrite filter_app, length_app. reflexivity.
Qed.

Lemma balance_get_camera (o : Camera.OpenOutcome) (s : Camera.Sys) :
  camera_balance s -> camera_balance (snd (Camera.get_camera o s)).
Proof.
  unfold camera_balance, Camera.get_camera, Camera.needs_open, Camera.held.
  destruct s as [[[[|]]|] l];
    cbn [Camera.camera Camera.log Camera.isOpened negb snd]; intros H;
    try exact H;
    destruct o; cbn [Camera.camera Camera.log Camera.isOpened negb snd];
    try exact H;
    rewrite opens_app, held_releases_app; cbn; lia.
Qed.

Lemma balance_release_camera (s : Camera.Sys) :
  camera_balance s -> camera_balance (Camera.release_camera s).
Proof.
  unfold camera_balance, Camera.release_camera, Camera.held.
  destruct s as [[[[|]]|] l];
    cbn [Camera.camera Camera.log Camera.isOpened]; intros H; try exact H;
    rewrite opens_app, held_releases_app; cbn; lia.
Qed.

Lemma balance_extend (s : Camera.Sys) (names : list string) :
  camera_balance s ->
  camera_balance (extend s (map StepStarted names)).
Proof.
  unfold camera_balance, extend, Camera.held.
  cbn [Camera.camera Camera.log]. intros H.
  rewrite opens_app, held_releases_app.
  assert (E : opens (map StepStarted names) = 0%nat
              /\ held_releases (map StepStarted names) = 0%nat).
  { induction names as [|n ns IH]; [split; reflexivity | exact IH]. }
  destruct E as [E1 E2]. rewrite E1, E2. lia.
Qed.

Lemma balance_ops (ops : list CameraOp) :
  forall s, camera_balance s -> camera_balance (fold_left camera_op ops s).
Proof.
  induction ops as [|op ops IH]; intros s H; [exact H|].
  cbn [fold_left]. apply IH. destruct op; cbn [camera_op].
  - apply balance_get_camera, H.
  - apply balance_release_camera, H.
Qed.

Lemma balance_fresh : camera_balance Camera.fresh.
Proof. reflexivity. Qed.

(** X4 (camera_service.py, [get_camera] and [release_camera]): whatever
    sequence of [get_camera] and [release_camera] calls a new
    [CameraService] receives, and however the driver behaves at each
    attempt to open, the number of devices opened equals the number of
    held devices released plus one if a device is held at the end.  So a
    device is never opened while one is held, no held device is released
    twice, and asking again for the camera hands out the handle that is
    already open. *)
Theorem camera_opens_balance_releases :
  forall ops : list CameraOp,
    let s := fold_left camera_op ops Camera.fresh in
    opens (Camera.log s)
    = (held_releases (Camera.log s) + (if Camera.held s then 1 else 0))%nat
    /\ (forall o, Camera.held s = true ->
                  Camera.get_camera o s = (Camera.camera s, s)).
Proof.
  intros ops s. split.
  - apply (balance_ops ops Camera.fresh balance_fresh).
  - intros o Hh. unfold Camera.get_camera, Camera.needs_open.
    unfold Camera.held in Hh. destruct (Camera.camera s) as [[b]|].
    + cbn in Hh |- *. rewrite Hh. reflexivity.
    + discriminate Hh.
Qed.

(** ** [run_individual_step] *)

(** The state after [dispatch]: the log grows by at most the step's name. *)
Lemma dispatch_state (cfg : Liveness.Config) (w : Liveness.World)
    (step_name : string) (image_data : option string)
    (kw : Individual.Kwargs) (s : Camera.Sys) :
  let out := Individual.dispatch cfg w step_name image_data kw s in
  (snd out = extend s [StepStarted step_name]
   /\ existsb (String.eqb step_name) Api.valid_steps = true
   /\ exists d, fst out = inl d)
  \/ (snd out = s
      /\ exists e, fst out = inr e
         /\ (e = "Reference image required for person verification"%string
             \/ (exists data, Liveness.decode_image_from_base64 w data = inl e)
             \/ e = ("Unknown step: " ++ step_name)%string)).
Proof.
  unfold Individual.dispatch, Api.valid_steps, Individual.start, extend.
  cbn [existsb].
  destruct (String.eqb step_name "person_verification") eqn:E1.
  - destruct (negb (MouthCaptcha.truthy image_data)).
    + right. split; [reflexivity|]. eexists. split; [reflexivity|]. now left.
    + destruct (Liveness.decode_image_from_base64 w _) as [e|n] eqn:Ed.
      * right. split; [reflexivity|]. exists e. split; [reflexivity|].
        right; left. eexists. exact Ed.
      * left. cbn. split; [reflexivity|]. split; [reflexivity|].
        eexists; reflexivity.
  - destruct (String.eqb step_name "midas_liveness") eqn:E2.
    { left. cbn. split; [reflexivity|]. split; [reflexivity|].
      eexists; reflexivity. }
    destruct (String.eqb step_name "blink_detection") eqn:E3.
    { left. cbn. split; [reflexivity|]. split; [reflexivity|].
      eexists; reflexivity. }
    destruct (String.eqb step_name "mouth_captcha") eqn:E4.
    { left. cbn. split; [reflexivity|]. split; [reflexivity|].
      eexists; reflexivity. }
    right. split; [reflexivity|]. eexists. split; [reflexivity|].
    right; right; reflexivity.
Qed.

(** The state after [run_individual_step]. *)
Lemma individual_state (cfg : Liveness.Config) (w : Liveness.World)
    (step_name : string) (image_data : option string)
    (kw : Individual.Kwargs) (s : Camera.Sys) :
  exists names,
    snd (Individual.run_individual_step cfg w step_name image_data kw s)
    = Camera.release_camera
        (extend (snd (Camera.get_camera (Liveness.open_outcome w) s))
                (map StepStarted names))
    /\ (names = [] \/ (names = [step_name]
                       /\ acquired (Liveness.open_outcome w) s = true)).
Proof.
  unfold Individual.run_individual_step, acquired.
  destruct (Camera.get_camera (Liveness.open_outcome w) s) as [[c|] s1].
  - pose proof (dispatch_state cfg w step_name image_data kw s1) as H.
    cbv zeta in H.
    destruct (Individual.dispatch cfg w step_name image_data kw s1)
      as [out s2].
    cbn [fst snd] in *.
    destruct H as [[Hs _]|[Hs _]]; subst s2.
    + exists [step_name]. split; [reflexivity|]. right. now split.
    + exists []. split; [|now left]. cbn [map]. now rewrite extend_nil.
  - exists []. cbn [fst snd map]. split; [|now left].
    now rewrite extend_nil.
Qed.

(** X5 (liveness_service.py, [run_individual_step], the [finally] clause):
    in whatever state the camera service is after earlier calls, and
    whatever the step does, no handle is stored once [run_individual_step]
    has returned and every device that was opened has been released;
    the step named is started at most once, and only with a camera. *)
Theorem individual_step_releases_the_device :
  forall cfg w step_name image_data kw (ops : list CameraOp),
    let s := fold_left camera_op ops Camera.fresh in
    let s' := snd (Individual.run_individual_step cfg w step_name
                     image_data kw s) in
    Camera.camera s' = None
    /\ opens (Camera.log s') = held_releases (Camera.log s')
    /\ (started (Camera.log s') = started (Camera.log s)
        \/ (started (Camera.log s') = started (Camera.log s) ++ [step_name]
            /\ acquired (Liveness.open_outcome w) s = true)).
Proof.
  intros cfg w step_name image_data kw ops s s'.
  destruct (individual_state cfg w step_name image_data kw s)
    as [names [Hs Hn]].
  fold s' in Hs.
  assert (Hb : camera_balance s').
  { rewrite Hs. apply balance_release_camera, balance_extend,
      balance_get_camera, balance_ops, balance_fresh. }
  assert (Hc : Camera.camera s' = None).
  { rewrite Hs. unfold Camera.release_camera.
    destruct (Camera.camera (extend _ _)) eqn:E; [reflexivity | exact E]. }
  split; [exact Hc|]. split.
  - unfold camera_balance, Camera.held in Hb. rewrite Hc in Hb. lia.
  - assert (Hst : started (Camera.log s')
                  = started (Camera.log s) ++ names).
    { rewrite Hs, started_release. unfold extend. cbn [Camera.log].
      rewrite started_app, started_get_camera. f_equal.
      clear. induction names as [|n ns IH]; [reflexivity|].
      cbn. f_equal. exact IH. }
    destruct Hn as [->|[-> Ha]].
    + left. now rewrite Hst, app_nil_r.
    + right. now split.
Qed.

(** With [None] as duration each of the four services ends in its guard
    or in its [except] clause. *)
Lemma none_duration_fails (w : Liveness.World) (display : bool) :
  (forall n, exists msg err,
      Individual.verify_person w n None display = Step.failure msg err)
  /\ (exists msg err,
      Individual.run_liveness_check w None display = Step.failure msg err)
  /\ (exists msg err,
      Individual.detect_blinks w None display = Step.failure msg err)
  /\ (exists msg err,
      Individual.run_captcha_verification w None display
      = Step.failure msg err).
Proof.
  unfold Individual.verify_person, Individual.run_liveness_check,
    Individual.detect_blinks, Individual.run_captcha_verification,
    Individual.budget, PersonVerification.verify_person,
    Midas.run_liveness_check, Blink.detect_blinks,
    MouthCaptcha.run_captcha_verification.
  repeat split; intros;
    repeat match goal with
           | |- context [if ?b then _ else _] => destruct b
           end;
    cbn [capture_loop Midas.loop]; do 2 eexists; reflexivity.
Qed.

Lemma individual_none_duration (cfg : Liveness.Config) (w : Liveness.World)
    (step_name : string) (image_data : option string) (display : option bool)
    (s : Camera.Sys) :
  exists msg err,
    fst (Individual.run_individual_step cfg w step_name image_data
           {| Individual.kw_duration := Some None;
              Individual.kw_display := display |} s)
    = Step.failure msg err.
Proof.
  unfold Individual.run_individual_step.
  destruct (Camera.get_camera (Liveness.open_outcome w) s) as [[c|] s1];
    [|cbn [fst]; do 2 eexists; reflexivity].
  unfold Individual.dispatch, Individual.get_duration.
  cbn [Individual.kw_duration].
  set (disp := Individual.get_display _ _).
  destruct (none_duration_fails w disp) as [Hp [Hm [Hb Hc]]].
  repeat match goal with
         | |- context [if ?b then _ else _] => destruct b
         | |- context [match Liveness.decode_image_from_base64 ?w ?x with
                       | inl _ => _ | inr _ => _ end] =>
             destruct (Liveness.decode_image_from_base64 w x)
         end;
    cbn [fst snd];
    solve [ apply Hp | exact Hm | exact Hb | exact Hc
          | do 2 eexists; reflexivity ].
Qed.

(** X6 (liveness_service.py, [run_individual_step]; the [while] condition
    of the four step services): a [duration] keyword whose value is [None]
    replaces the configured duration, and no step can succeed with it:
    whichever step is named and whatever the camera shows, the result is
    a failure dictionary. *)
Theorem individual_step_fails_on_none_duration :
  forall cfg w step_name image_data display s,
    let d := fst (Individual.run_individual_step cfg w step_name image_data
                    {| Individual.kw_duration := Some None;
                       Individual.kw_display := display |} s) in
    (exists msg err, d = Step.failure msg err)
    /\ Step.success d = false.
Proof.
  intros cfg w step_name image_data display s d.
  pose proof (individual_none_duration cfg w step_name image_data display s)
    as H.
  fold d in H. split; [exact H|]. destruct H as [msg [err ->]]. reflexivity.
Qed.

(** X7 (liveness_service.py, [run_individual_step], the [raise] statements
    and the [except] clause): either the step named is started, which
    needs a camera and one of the four step names, or no step is started
    and the result is the failure dictionary with the message
    "Step <name> failed", confidence 0 and, as error, one of: no camera, no
    reference image for the person step, the decoder's message, or the
    unknown step name. *)
Theorem unstarted_step_gives_generic_failure :
  forall cfg w step_name image_data kw s,
    let run := Individual.run_individual_step cfg w step_name image_data
                 kw s in
    (started (Camera.log (snd run)) = started (Camera.log s) ++ [step_name]
     /\ acquired (Liveness.open_outcome w) s = true
     /\ existsb (String.eqb step_name) Api.valid_steps = true)
    \/ (started (Camera.log (snd run)) = started (Camera.log s)
        /\ exists e,
            fst run = Step.failure ("Step " ++ step_name ++ " failed") e
            /\ (e = "Camera not available"%string
                \/ e = "Reference image required for person verification"%string
                \/ (exists data,
                      Liveness.decode_image_from_base64 w data = inl e)
                \/ e = ("Unknown step: " ++ step_name)%string)).
Proof.
  intros cfg w step_name image_data kw s.
  unfold Individual.run_individual_step, acquired.
  destruct (Camera.get_camera (Liveness.open_outcome w) s) as [[c|] s1] eqn:Eg.
  - pose proof (dispatch_state cfg w step_name image_data kw s1) as H.
    cbv zeta in H.
    destruct (Individual.dispatch cfg w step_name image_data kw s1)
      as [out s2].
    assert (Hs1 : started (Camera.log s1) = started (Camera.log s)).
    { replace s1 with (snd (Camera.get_camera (Liveness.open_outcome w) s))
        by now rewrite Eg.
      apply started_get_camera. }
    cbn [fst snd] in *.
    destruct H as [[Hs [Hv _]]|[Hs [e [He Hc]]]]; subst s2.
    + left. rewrite started_release. unfold extend. cbn [Camera.log].
      rewrite started_app, Hs1. now repeat split.
    + right. rewrite started_release, Hs1. split; [reflexivity|].
      exists e. subst out. split; [reflexivity|]. right. exact Hc.
  - right. cbn [fst snd].
    replace s1 with (snd (Camera.get_camera (Liveness.open_outcome w) s))
      by now rewrite Eg.
    rewrite started_release, started_get_camera. split; [reflexivity|].
    eexists. split; [reflexivity|]. now left.
Qed.

(** X8 (liveness_service.py, [run_individual_step]): the step name is
    looked at only after the camera has been asked for.  A request for a
    step that does not exist therefore opens the capture device, releases
    it again and reports the unknown name. *)
Theorem unknown_step_opens_and_releases_the_camera :
  forall cfg w step_name image_data kw,
    existsb (String.eqb step_name) Api.valid_steps = false ->
    Liveness.open_outcome w = Camera.Opens ->
    Individual.run_individual_step cfg w step_name image_data kw Camera.fresh
    = (Step.failure ("Step " ++ step_name ++ " failed")
                    ("Unknown step: " ++ step_name),
       {| Camera.camera := None;
          Camera.log := [DeviceOpened; DeviceReleased true] |}).
Proof.
  intros cfg w step_name image_data kw Hn Ho.
  unfold Api.valid_steps in Hn. cbn [existsb] in Hn.
  repeat (apply orb_false_iff in Hn; destruct Hn as [? Hn]).
  unfold Individual.run_individual_step, Individual.dispatch.
  rewrite Ho. cbn [Camera.get_camera Camera.needs_open Camera.fresh
                   Camera.camera].
  repeat match goal with
         | H : String.eqb _ _ = false |- _ => rewrite H; clear H
         end.
  reflexivity.
Qed.

Lemma unknown_step_sample :
  Individual.run_individual_step (Liveness.config false) live_world
    "face_swap" None no_kwargs Camera.fresh
  = (Step.failure "Step face_swap failed" "Unknown step: face_swap",
     {| Camera.camera := None;
        Camera.log := [DeviceOpened; DeviceReleased true] |}).
Proof.
  exact (unknown_step_opens_and_releases_the_camera (Liveness.config false)
           live_world "face_swap" None no_kwargs eq_refl eq_refl).
Defined.

(** ** The sequence and its steps *)




(** X11 (liveness_service.py, [run_complete_liveness_detection], step 1):
    a reference image that cannot be decoded does not end the run at the
    person step.  The run goes on to the depth and pose check and ends
    there, and its result is the result of the run without a reference
    image. *)
Theorem undecodable_reference_does_not_end_the_run :
  forall cfg w data e s,
    MouthCaptcha.truthy (Some data) = true ->
    Liveness.decode_image_from_base64 w data = inl e ->
    let run := Liveness.run_complete_liveness_detection cfg w
                 (Some data) s in
    let run0 := Liveness.run_complete_liveness_detection cfg w None s in
    fst run = fst run0
    /\ (acquired (Liveness.open_outcome w) s = true ->
        Results.error (fst run) = Some "2D/3D liveness check failed"%string
        /\ started (Camera.log (snd run))
           = started (Camera.log s)
             ++ ["person_verification"; "midas_liveness"]%string
        /\ started (Camera.log (snd run0))
           = started (Camera.log s) ++ ["midas_liveness"]%string).
Proof.
  intros cfg w data e s Ht Hd run run0. subst run run0.
  unfold Liveness.run_complete_liveness_detection, Liveness.person_outcome.
  rewrite Ht, Hd. cbn [MouthCaptcha.truthy].
  rewrite !orchestrate_eq. cbv zeta. unfold acquired.
  pose proof (started_get_camera (Liveness.open_outcome w) s) as Hcam.
  destruct (fst (Camera.get_camera (Liveness.open_outcome w) s)) as [c|];
    [|split; [reflexivity|discriminate]].
  set (ps := mkStage "person_verification" "Person verification failed"
                     Liveness.plain_entry (Liveness.Raised e)).
  set (m := mkStage "midas_liveness" "2D/3D liveness check failed"
                    Liveness.plain_entry (Liveness.midas_outcome cfg w)).
  set (b := mkStage "blink_detection" "Blink detection failed"
                    Liveness.blink_entry (Liveness.blink_outcome cfg w)).
  set (k := mkStage "mouth_captcha" "Voice captcha verification failed"
                    Liveness.captcha_entry (Liveness.captcha_outcome cfg w)).
  pose proof (midas_stage_fails cfg w) as Hm. fold m in Hm.
  change (stages (Some (Liveness.Raised e)) (Liveness.midas_outcome cfg w)
                 (Liveness.blink_outcome cfg w)
                 (Liveness.captcha_outcome cfg w))
    with ([ps] ++ m :: [b; k]).
  change (stages None (Liveness.midas_outcome cfg w)
                 (Liveness.blink_outcome cfg w)
                 (Liveness.captcha_outcome cfg w))
    with ([] ++ m :: [b; k]).
  rewrite (run_stages_fail [ps] m [b; k] _ _ _ eq_refl Hm).
  rewrite (run_stages_fail [] m [b; k] _ _ _ eq_refl Hm).
  cbn [fst snd]. split; [reflexivity|]. intros _.
  split; [reflexivity|].
  rewrite !started_release. unfold extend. cbn [Camera.log].
  rewrite !started_app, Hcam. split; reflexivity.
Qed.

Lemma undecodable_reference_sample :
  fst undecodable_run = fst unreferenced_run
  /\ Results.error (fst undecodable_run)
     = Some "2D/3D liveness check failed"%string
  /\ started (Camera.log (snd undecodable_run))
     = ["person_verification"; "midas_liveness"]%string
  /\ started (Camera.log (snd unreferenced_run)) = ["midas_liveness"]%string.
Proof.
  destruct (undecodable_reference_does_not_end_the_run (Liveness.config false)
              undecodable_world "abc" _ Camera.fresh eq_refl eq_refl)
    as [H1 H2].
  split; [exact H1|]. exact (H2 eq_refl).
Defined.

(** ** Steps without frames *)

Lemma Forall_skipn_keeps {A : Type} (P : A -> Prop) (n : nat) (l : list A) :
  Forall P l -> Forall P (skipn n l).
Proof.
  revert l. induction n as [|n IH]; intros l H; [exact H|].
  destruct l as [|x l]; [constructor|].
  cbn [skipn]. apply IH. now inversion H.
Qed.

Lemma deque_append_length {A : Type} (maxlen : nat) (d : list A) (x : A) :
  List.length (Midas.deque_append maxlen d x)
  = Nat.min (S (List.length d)) maxlen.
Proof.
  unfold Midas.deque_append. rewrite length_skipn, !length_app.
  cbn [List.length]. lia.
Qed.

Lemma zero_div (x : Q) : 0.0 / x == 0.
Proof. unfold Qdiv, Qmult, Qeq. simpl. reflexivity. Qed.

(** X15 (the four step services, the [while] loop and what follows it):
    when the camera delivers no frame during a step, the person, blink
    and captcha steps return an ordinary result that reports failure,
    with no frame processed; the depth and pose check divides by its
    number of votes when it logs the vote ratio and ends in its [except]
    clause, so its result is the failure dictionary of a
    [ZeroDivisionError]. *)
Theorem steps_without_frames :
  forall (display : bool) (duration n : nat)
         (P : MouthCaptcha.Providers) (dr : MouthCaptcha.Draw),
    Midas.run_liveness_check true duration display (repeat NoFrame n)
    = Step.failure "2D/3D liveness check failed: division by zero"
                   "division by zero"
    /\ (let d := PersonVerification.verify_person true 1 display
                   (repeat NoFrame n) in
        Step.success d = false /\ Step.error d = None
        /\ Step.metrics d = Step.PersonMetrics 0 [])
    /\ (let d := Blink.detect_blinks true display (repeat NoFrame n) in
        Step.success d = false /\ Step.error d = None
        /\ Step.metrics d = Step.BlinkMetrics 0 0 0)
    /\ (let d := MouthCaptcha.run_captcha_verification P true dr display
                   (repeat NoFrame n) in
        Step.success d = false /\ Step.error d = None).
Proof.
  intros display duration n P dr.
  assert (Hm : Midas.loop (repeat NoFrame n) Midas.init = inl Midas.init).
  { clear. induction n as [|k IH]; [reflexivity|exact IH]. }
  assert (H : forall (A S : Type) (q : bool) (body : A -> S -> S) (st : S),
             capture_loop q body (repeat NoFrame n) st = inl st).
  { clear. intros A S q body st.
    induction n as [|k IH]; [reflexivity|exact IH]. }
  unfold Midas.run_liveness_check, PersonVerification.verify_person,
    Blink.detect_blinks, MouthCaptcha.run_captcha_verification.
  rewrite !H, Hm. cbn [negb Nat.eqb].
  repeat split.
Qed.

(** ** Blink detection *)

(** Every blink uses up three readings: two low ones and the one that is
    not low. *)
Lemma blink_fold_bound (ears : list Q) :
  forall c t n,
    (3 * t + Nat.min 2 c <= n)%nat ->
    let ct := fold_left (fun ct e => Blink.blink_update e ct) ears (c, t) in
    (3 * snd ct + Nat.min 2 (fst ct) <= n + List.length ears)%nat.
Proof.
  induction ears as [|e ears IH]; intros c t n H; cbn [fold_left].
  - cbn [fst snd List.length]. lia.
  - cbn [List.length].
    replace (n + S (List.length ears))%nat with (S n + List.length ears)%nat
      by lia.
    destruct (Blink.blink_update e (c, t)) as [c' t'] eqn:Eu.
    apply IH. unfold Blink.blink_update, Blink.EYE_AR_CONSEC_FRAMES in Eu.
    destruct (Qltb e Blink.EYE_AR_THRESH).
    + injection Eu as <- <-. destruct c as [|[|c]]; cbn [Nat.min] in *; lia.
    + destruct c as [|[|c]]; cbn [Nat.leb] in Eu; injection Eu as <- <-;
        cbn [Nat.min] in *; lia.
Qed.

Lemma gaze_bound_face (f : Blink.Face) (st : Blink.State) :
  (Blink.gaze_movements st <= List.length (Blink.ear_values st))%nat ->
  (Blink.gaze_movements (Blink.on_face f st)
   <= List.length (Blink.ear_values (Blink.on_face f st)))%nat.
Proof.
  intro H. unfold Blink.on_face.
  destruct (Blink.blink_update _ _) as [c t].
  cbn [Blink.gaze_movements Blink.ear_values].
  rewrite length_app. cbn [List.length].
  destruct (_ || _); lia.
Qed.

Lemma gaze_bound_frame (rects : list Blink.Face) (st : Blink.State) :
  (Blink.gaze_movements st <= List.length (Blink.ear_values st))%nat ->
  (Blink.gaze_movements (Blink.on_frame rects st)
   <= List.length (Blink.ear_values (Blink.on_frame rects st)))%nat.
Proof.
  intro H. unfold Blink.on_frame.
  set (st1 := Blink.mkState _ _ _ _ _ _).
  assert (H1 : (Blink.gaze_movements st1
                <= List.length (Blink.ear_values st1))%nat) by exact H.
  clearbody st1. clear H st.
  revert st1 H1. induction rects as [|f fs IH]; intros st1 H1; [exact H1|].
  cbn [fold_left]. apply IH, gaze_bound_face, H1.
Qed.

Lemma gaze_bound_run (frames : list (list Blink.Face)) :
  forall st,
    (Blink.gaze_movements st <= List.length (Blink.ear_values st))%nat ->
    let st' := fold_left (fun s r => Blink.on_frame r s) frames st in
    (Blink.gaze_movements st' <= List.length (Blink.ear_values st'))%nat.
Proof.
  induction frames as [|r frames IH]; intros st H; [exact H|].
  cbn [fold_left]. apply IH, gaze_bound_frame, H.
Qed.

(** X16 (blink_detection_service.py, [detect_blinks], the counters): each
    face found in a frame gives one EAR reading; a run reports at most
    one blink per three readings and at most one gaze movement per
    reading.  A step that passes has therefore seen a face at least three
    times. *)
Theorem blink_takes_three_readings :
  forall loaded display frames b g n,
    Step.metrics (Blink.detect_blinks loaded display frames)
    = Step.BlinkMetrics b g n ->
    let readings := List.length (ears_of (processed display frames)) in
    (3 * b <= readings)%nat
    /\ (g <= readings)%nat
    /\ (Step.success (Blink.detect_blinks loaded display frames) = true ->
        (3 <= readings)%nat).
Proof.
  intros loaded display frames b g n. cbv zeta.
  set (readings := List.length (ears_of (processed display frames))).
  unfold Blink.detect_blinks.
  destruct loaded; cbn [negb]; [|cbn; discriminate].
  destruct (capture_loop display Blink.on_frame frames Blink.init)
    as [st|e] eqn:E; [|cbn; discriminate].
  apply capture_loop_fold in E. cbn [Step.metrics Step.success].
  intro H. injection H as Hb Hg _.
  destruct (blink_run_inv (processed display frames)) as [Hears Hfold].
  rewrite <- E in Hears, Hfold.
  pose proof (blink_fold_bound (ears_of (processed display frames))
                0 0 0 (Nat.le_refl _)) as Hbound.
  cbv zeta in Hbound. rewrite <- Hfold in Hbound. cbn [fst snd] in Hbound.
  pose proof (gaze_bound_run (processed display frames) Blink.init
                (Nat.le_refl _)) as Hgaze.
  cbv zeta in Hgaze. rewrite <- E, Hears in Hgaze.
  fold readings in Hbound, Hgaze. subst b g.
  split; [lia|]. split; [exact Hgaze|].
  rewrite andb_true_iff, Nat.leb_le. intros [H1 _]. lia.
Qed.

Lemma blink_sample_readings :
  Step.metrics (Blink.detect_blinks true false blink_sample)
  = Step.BlinkMetrics 1 4 4
  /\ (3 * 1 <= List.length (ears_of (processed false blink_sample)))%nat
  /\ (4 <= List.length (ears_of (processed false blink_sample)))%nat.
Proof.
  split; [reflexivity|].
  pose proof (blink_takes_three_readings true false blink_sample
                1%nat 4%nat 4%nat eq_refl) as H.
  exact (conj (proj1 H) (proj1 (proj2 H))).
Defined.

(** ** The voice captcha *)

Lemma camera_draws_complete (d : MouthCaptcha.Draw) :
  camera_draw d -> In d camera_draws.
Proof.
  destruct d as [a b op]. unfold camera_draw.
  cbn [MouthCaptcha.draw_a MouthCaptcha.draw_b]. intros [Ha Hb].
  unfold camera_draws. apply in_flat_map.
  exists (Z.to_nat (a - 20)). split; [apply in_seq; lia|].
  apply in_flat_map. exists (Z.to_nat b). split; [apply in_seq; lia|].
  replace (20 + Z.of_nat (Z.to_nat (a - 20)))%Z with a by lia.
  replace (Z.of_nat (Z.to_nat b)) with b by lia.
  destruct op; cbn; auto.
Qed.

Lemma camera_draws_read_back : forallb reads_back camera_draws = true.
Proof. vm_compute. reflexivity. Qed.

Lemma question_truthy (d : MouthCaptcha.Draw) :
  MouthCaptcha.truthy (Some (captcha_question d)) = true.
Proof.
  unfold MouthCaptcha.truthy, captcha_question.
  destruct (py_str (MouthCaptcha.draw_a d)); reflexivity.
Qed.

(** X17 (mouth_captcha_service.py, [run_captcha_verification] and
    [verify_uploaded_audio]): every question the camera captcha can draw
    is read back by the upload variant as the sum or difference it stands
    for, so both variants work on the same numbers.  They expect the same
    spoken answer except when the sum is 100 (90 + 10): the camera
    captcha folds it to "0", the upload variant expects "100". *)
Theorem camera_question_is_read_back_by_upload :
  forall (P : MouthCaptcha.Providers) (d : MouthCaptcha.Draw),
    camera_draw d ->
    (forall display frames q a sp rn mv n,
        Step.metrics (MouthCaptcha.run_captcha_verification P true d display
                        frames)
        = Step.CaptchaMetrics q a sp rn mv n ->
        q = captcha_question d
        /\ a = py_str (MouthCaptcha.captcha_value d))
    /\ MouthCaptcha.parse_expression (captcha_question d)
       = Some (exact_answer d)
    /\ (forall d' partials final,
          Step.metrics (MouthCaptcha.verify_uploaded_audio P true d'
                          (MouthCaptcha.Speech partials final)
                          (Some (captcha_question d)))
          = Step.UploadMetrics
              (Some (captcha_question d ++ " = ?")%string)
              (Some (py_str (exact_answer d)))
              (upload_transcript partials final)
              (MouthCaptcha.recognize P (upload_transcript partials final)))
    /\ (py_str (exact_answer d) = py_str (MouthCaptcha.captcha_value d)
        <-> exact_answer d <> 100%Z).
Proof.
  intros P d Hd.
  pose proof (proj1 (forallb_forall reads_back camera_draws)
                camera_draws_read_back d (camera_draws_complete d Hd)) as Hr.
  unfold reads_back in Hr.
  apply andb_true_iff in Hr as [Hr Heq].
  apply andb_true_iff in Hr as [Hparse Hpos].
  destruct (MouthCaptcha.parse_expression (captcha_question d)) as [v|] eqn:Ep;
    [|discriminate Hparse].
  apply Z.eqb_eq in Hparse. subst v.
  apply Z.ltb_lt in Hpos.
  split; [|split; [reflexivity|split]].
  - intros display frames q a sp rn mv n.
    unfold MouthCaptcha.run_captcha_verification. cbn [negb].
    destruct (capture_loop true MouthCaptcha.on_frame frames MouthCaptcha.init);
      cbn [Step.metrics]; [|discriminate].
    intro H. injection H as <- <- _ _ _ _. split; reflexivity.
  - intros d' partials final.
    unfold MouthCaptcha.verify_uploaded_audio. cbn [negb].
    rewrite question_truthy, Ep. cbn [option_map].
    set (rec := MouthCaptcha.recognize P _).
    replace (Z.abs (exact_answer d)) with (exact_answer d) by lia.
    assert (Hq : String.eqb (captcha_question d) "" = false).
    { pose proof (question_truthy d) as Ht. unfold MouthCaptcha.truthy in Ht.
      now apply negb_true_iff in Ht. }
    destruct (MouthCaptcha.eq_answer rec (py_str (exact_answer d)));
      cbn [Step.metrics]; rewrite Hq; reflexivity.
  - replace (Z.abs (exact_answer d)) with (exact_answer d) in Heq by lia.
    apply Bool.eqb_prop in Heq. rewrite <- String.eqb_eq, Heq.
    rewrite negb_true_iff, Z.eqb_neq. tauto.
Qed.

Lemma hundred_is_a_camera_draw : camera_draw hundred_draw.
Proof. unfold camera_draw. cbn. lia. Defined.

Lemma hundred_draw_is_read_back :
  MouthCaptcha.parse_expression "90 + 10 = ?" = Some 100%Z
  /\ py_str (MouthCaptcha.captcha_value hundred_draw) = "0"%string
  /\ MouthCaptcha.parse_expression (captcha_question hundred_draw)
     = Some (exact_answer hundred_draw).
Proof.
  split; [reflexivity|]. split; [reflexivity|].
  exact (proj1 (proj2 (camera_question_is_read_back_by_upload sample_providers
                         hundred_draw hundred_is_a_camera_draw))).
Defined.

(** X18 (mouth_captcha_service.py, [run_captcha_verification], success
    criteria): the spoken answer alone never passes the camera captcha.
    When no frame shows a face there is no mouth reading, the step fails
    whatever is said, and its confidence is at most one half. *)
Theorem captcha_fails_without_mouth_readings :
  forall P loaded d display frames,
    (forall o q, In (Frame o q) frames -> MouthCaptcha.mars o = []) ->
    let r := MouthCaptcha.run_captcha_verification P loaded d display
               frames in
    Step.success r = false /\ 0 <= Step.confidence r <= 0.5.
Proof.
  intros P loaded d display frames Hm.
  unfold MouthCaptcha.run_captcha_verification.
  destruct loaded; cbn [negb]; [|cbn; split; [reflexivity|lra]].
  destruct (capture_loop true MouthCaptcha.on_frame frames MouthCaptcha.init)
    as [st|e] eqn:E; [|cbn; split; [reflexivity|lra]].
  assert (H : MouthCaptcha.mar_movement st = []).
  { apply (capture_loop_keeps true MouthCaptcha.on_frame
             (fun o => MouthCaptcha.mars o = [])
             (fun st => MouthCaptcha.mar_movement st = []))
      with (frames := frames) (st := MouthCaptcha.init).
    - intros o s Ho Hs. unfold MouthCaptcha.on_frame.
      cbn [MouthCaptcha.mar_movement]. now rewrite Hs, Ho.
    - exact Hm.
    - reflexivity.
    - exact E. }
  rewrite H. cbn [Step.success Step.confidence].
  change (Qltb 0.01 0.0) with false. cbn [andb].
  split; [reflexivity|].
  set (m := py_min 1.0 (0.0 / 0.02)).
  assert (Hm0 : m == 0) by (vm_compute; reflexivity).
  clearbody m.
  destruct (MouthCaptcha.eq_answer _ _); qlra.
Qed.

Lemma voice_only_sample_fails :
  Step.success (MouthCaptcha.run_captcha_verification sample_providers true
                  (Liveness.captcha_draw live_world) false voice_only_sample)
  = false
  /\ 0 <= Step.confidence
            (MouthCaptcha.run_captcha_verification sample_providers true
               (Liveness.captcha_draw live_world) false voice_only_sample)
     <= 0.5.
Proof.
  apply (captcha_fails_without_mouth_readings sample_providers true
           (Liveness.captcha_draw live_world) false voice_only_sample).
  intros o q H. cbn in H.
  destruct H as [H|[H|[H|[]]]]; injection H as <- _; reflexivity.
Defined.

(** ** The endpoints *)

Lemma step_call_none_duration (w : Liveness.World) (name : string)
    (image : option string) (data : Api.Json) (s : Camera.Sys) :
  Api.duration data = None ->
  Step.success (fst (Api.step_call w name image data s)) = false.
Proof.
  intro H. unfold Api.step_call. rewrite H.
  destruct (individual_none_duration (Liveness.config false) w name image
              (Some (Api.display_of data)) s) as [msg [err ->]].
  reflexivity.
Qed.

Lemma in_session_status {X : Type} (env : Api.Env) (prefix : string)
    (run : Camera.Sys -> X * Camera.Sys) (respond : X -> Api.Response) :
  status (Api.in_session env prefix run respond) = 500%nat
  \/ status (Api.in_session env prefix run respond)
     = snd (respond (fst (run Camera.fresh))).
Proof.
  unfold Api.in_session, status.
  destruct (Api.session_fault env); [now left|].
  destruct (run Camera.fresh) as [x s].
  destruct (Api.commit_fault env); [now left | now right].
Qed.

Lemma handler_status (env : Api.Env) (prefix : string)
    (rest : Api.Response * Camera.Sys) :
  status (Api.handler env prefix rest) = 500%nat
  \/ status (Api.handler env prefix rest) = status rest.
Proof.
  unfold Api.handler. destruct (Api.request_fault env); [now left|now right].
Qed.

(** X19 (api/v1/liveness.py, the [post] methods of [/step],
    [/2d-3d-check], [/blink-detection], [/voice-captcha] and
    [/voice-captcha-public]; liveness_service.py, [run_individual_step]):
    these handlers pass [data.get('duration')] on as the keyword
    [duration].  For a request that gives no duration the keyword is
    [None], which replaces the configured duration, so none of the five
    endpoints can answer 200: the status is 400, or 500 when something
    around the service call raises. *)
Theorem step_endpoints_never_succeed_without_duration :
  forall env w body,
    Api.duration (Api.or_empty body) = None ->
    In (status (Api.step_post env w body)) [400; 500]%nat
    /\ In (status (Api.check_2d3d_post env w body)) [400; 500]%nat
    /\ In (status (Api.blink_detection_post env w body)) [400; 500]%nat
    /\ In (status (Api.voice_captcha_post env w body)) [400; 500]%nat
    /\ In (status (Api.voice_captcha_public_post env w body)) [400; 500]%nat.
Proof.
  intros env w body Hd.
  assert (Hs : forall name image prefix respond,
             (forall d, snd (respond d) = Api.status_of (Step.success d)) ->
             In (status (Api.in_session env prefix
                           (Api.step_call w name image (Api.or_empty body))
                           respond)) [400; 500]%nat).
  { intros name image prefix respond Hr.
    destruct (in_session_status env prefix
                (Api.step_call w name image (Api.or_empty body)) respond)
      as [->| ->]; [right; now left|].
    rewrite Hr, (step_call_none_duration _ _ _ _ _ Hd). now left. }
  repeat split.
  - unfold Api.step_post, Api.handler.
    destruct (Api.request_fault env); [right; now left|].
    destruct body as [data|]; [|right; now left].
    destruct (negb (MouthCaptcha.truthy (Api.step_name data)));
      [now left|].
    cbv zeta.
    destruct (negb (existsb _ Api.valid_steps)); [now left|].
    apply (Hs _ _ _ (fun d => (Api.StepBody d,
                               Api.status_of (Step.success d)))).
    reflexivity.
  - unfold Api.check_2d3d_post.
    destruct (handler_status env "2D/3D liveness check failed: "
                (Api.in_session env "2D/3D liveness check failed: "
                   (Api.step_call w "midas_liveness" None (Api.or_empty body))
                   (fun d => (Api.StepBody d,
                              Api.status_of (Step.success d)))))
      as [-> | ->]; [right; now left|].
    now apply Hs.
  - unfold Api.blink_detection_post.
    destruct (handler_status env "Blink detection failed: "
                (Api.in_session env "Blink detection failed: "
                   (Api.step_call w "blink_detection" None (Api.or_empty body))
                   (fun d => (Api.StepBody d,
                              Api.status_of (Step.success d)))))
      as [-> | ->]; [right; now left|].
    now apply Hs.
  - unfold Api.voice_captcha_post.
    destruct (handler_status env "Voice captcha verification failed: "
                (Api.in_session env "Voice captcha verification failed: "
                   (Api.step_call w "mouth_captcha" None (Api.or_empty body))
                   (fun d => (Api.VoiceBody (Step.success d) (Step.message d),
                              Api.status_of (Step.success d)))))
      as [-> | ->]; [right; now left|].
    now apply Hs.
  - unfold Api.voice_captcha_public_post, Api.handler, status.
    destruct (Api.request_fault env); [right; now left|].
    pose proof (step_call_none_duration w "mouth_captcha" None
                  (Api.or_empty body) Camera.fresh Hd) as H.
    destruct (Api.step_call w "mouth_captcha" None (Api.or_empty body)
                Camera.fresh) as [d s].
    cbn [fst snd] in *. rewrite H. now left.
Qed.

Lemma empty_request_is_refused :
  In (status (Api.step_post calm live_world
                (Some {| Api.step_name := Some "blink_detection"%string;
                         Api.reference_image := None;
                         Api.duration := None;
                         Api.enable_display := None |}))) [400; 500]%nat
  /\ status (Api.blink_detection_post calm live_world None) = 400%nat
  /\ Step.success (Blink.detect_blinks true false
                     (Liveness.blink_frames live_world)) = true.
Proof.
  split; [|split; reflexivity].
  exact (proj1 (step_endpoints_never_succeed_without_duration calm live_world
                  (Some {| Api.step_name := Some "blink_detection"%string;
                           Api.reference_image := None;
                           Api.duration := None;
                           Api.enable_display := None |}) eq_refl)).
Defined.

(** ** The data URL prefix of a reference image *)

Lemma list_ascii_app (a b : string) :
  list_ascii_of_string (a ++ b)
  = list_ascii_of_string a ++ list_ascii_of_string b.
Proof.
  induction a as [|c a IH]; [reflexivity|].
  cbn. now rewrite IH.
Qed.

Lemma split_on_aux_none (sep : ascii) (l : list ascii) :
  forall cur,
    existsb (fun x => Ascii.eqb x sep) l = false ->
    split_on_aux sep l cur = [string_of_list_ascii (rev cur ++ l)].
Proof.
  induction l as [|c l IH]; intros cur H.
  - cbn. now rewrite app_nil_r.
  - cbn in H. apply orb_false_iff in H as [Hc Hl].
    cbn [split_on_aux]. rewrite Hc, (IH _ Hl). cbn [rev].
    now rewrite <- app_assoc.
Qed.

Lemma split_on_aux_first (sep : ascii) (l1 l2 : list ascii) :
  forall cur,
    existsb (fun x => Ascii.eqb x sep) l1 = false ->
    split_on_aux sep (l1 ++ sep :: l2) cur
    = string_of_list_ascii (rev cur ++ l1) :: split_on_aux sep l2 [].
Proof.
  induction l1 as [|c l1 IH]; intros cur H.
  - cbn [app split_on_aux]. rewrite Ascii.eqb_refl. now rewrite app_nil_r.
  - cbn in H. apply orb_false_iff in H as [Hc Hl].
    cbn [app split_on_aux]. rewrite Hc, (IH _ Hl). cbn [rev].
    now rewrite <- app_assoc.
Qed.

Lemma split_on_aux_clean (sep : ascii) (l : list ascii) :
  forall cur,
    existsb (fun x => Ascii.eqb x sep) cur = false ->
    Forall (fun piece => contains sep piece = false)
           (split_on_aux sep l cur).
Proof.
  assert (Hrev : forall cur,
             existsb (fun x => Ascii.eqb x sep) cur = false ->
             contains sep (string_of_list_ascii (rev cur)) = false).
  { intros cur H. unfold contains.
    rewrite list_ascii_of_string_of_list_ascii.
    destruct (existsb _ (rev cur)) eqn:E; [|reflexivity].
    apply existsb_exists in E as [x [Hin Hx]].
    apply in_rev in Hin.
    assert (Ht : existsb (fun x => Ascii.eqb x sep) cur = true)
      by (apply existsb_exists; now exists x).
    congruence. }
  induction l as [|c l IH]; intros cur H; cbn [split_on_aux].
  - constructor; [now apply Hrev|constructor].
  - destruct (Ascii.eqb c sep) eqn:Ec.
    + constructor; [now apply Hrev|]. now apply IH.
    + apply IH. cbn. now rewrite Ec.
Qed.

Lemma contains_app (c : ascii) (a b : string) :
  contains c (a ++ b) = contains c a || contains c b.
Proof.
  unfold contains. now rewrite list_ascii_app, existsb_app.
Qed.

(** X21 (liveness_service.py, [decode_image_from_base64], the data URL
    prefix): the text handed to the base64 decoder never contains a
    comma.  For a data URL, a prefix and a payload separated by a comma,
    it is the payload; whatever follows a second comma is dropped without
    notice. *)
Theorem data_url_prefix_is_cut_off :
  (forall image_data, contains "," (base64_text image_data) = false)
  /\ (forall prefix payload rest,
        contains "," prefix = false ->
        contains "," payload = false ->
        base64_text (prefix ++ "," ++ payload) = payload
        /\ base64_text (prefix ++ "," ++ payload ++ "," ++ rest) = payload).
Proof.
  split.
  - intro s. unfold base64_text.
    destruct (contains "," s) eqn:E; [|exact E].
    pose proof (split_on_aux_clean "," (list_ascii_of_string s) []
                  eq_refl) as H.
    fold (split_on "," s) in H.
    destruct (nth_in_or_default 1 (split_on "," s) ""%string) as [Hin| ->];
      [|reflexivity].
    rewrite Forall_forall in H. now apply H.
  - intros prefix payload rest Hp Hb. unfold base64_text.
    assert (Hc : forall tl, contains "," (prefix ++ "," ++ tl) = true).
    { intro tl. rewrite contains_app, Hp. reflexivity. }
    rewrite !Hc. unfold split_on. rewrite !list_ascii_app.
    cbn [list_ascii_of_string app].
    rewrite !(split_on_aux_first "," _ _ [] Hp).
    cbn [nth]. split.
    + rewrite (split_on_aux_none "," _ [] Hb). cbn [rev app].
      apply string_of_list_ascii_of_string.
    + rewrite (split_on_aux_first "," _ _ [] Hb). cbn [rev app].
      apply string_of_list_ascii_of_string.
Qed.

Lemma png_data_url_is_cut_off :
  base64_text "data:image/png;base64,iVBORw0KGgo=" = "iVBORw0KGgo="%string
  /\ base64_text "data:image/png;base64,iVBORw0KGgo=,tail"
     = "iVBORw0KGgo="%string.
Proof.
  exact (proj2 data_url_prefix_is_cut_off "data:image/png;base64"%string
           "iVBORw0KGgo="%string "tail"%string eq_refl eq_refl).
Defined.

(** X22 (api/v1/liveness.py, [PersonVerification.post]): the
    [/person-verification] endpoint passes no [duration] on, so the
    configured two seconds apply.  When nothing around the call raises it
    answers 200 exactly when a reference image is given, the camera
    opens, the image can be decoded and the person step succeeds on the
    frames of its loop; every other request with a body gets 400. *)
Theorem person_endpoint_uses_the_configured_duration :
  forall w data,
    let resp := Api.person_verification_post calm w (Some data) in
    (status resp = 200%nat
     <-> MouthCaptcha.truthy (Api.reference_image data) = true
         /\ Liveness.open_outcome w = Camera.Opens
         /\ exists ref_faces,
              Liveness.decode_image_from_base64 w
                (image_text (Api.reference_image data)) = inr ref_faces
              /\ Step.success
                   (PersonVerification.verify_person (Liveness.person_loaded w)
                      ref_faces (Api.display_of data)
                      (Liveness.person_frames w)) = true)
    /\ In (status resp) [200; 400]%nat.
Proof.
  intros w data. cbv zeta.
  unfold Api.person_verification_post, Api.handler, Api.in_session, status,
    calm, image_text.
  cbn [Api.request_fault Api.session_fault Api.commit_fault].
  destruct (MouthCaptcha.truthy (Api.reference_image data)) eqn:Ht;
    cbn [negb fst snd].
  - unfold Individual.run_individual_step.
    destruct (Liveness.open_outcome w) eqn:Eo;
      cbn [Camera.get_camera Camera.needs_open Camera.fresh Camera.camera
           fst snd Api.status_of Step.failure Step.success].
    + unfold Individual.dispatch.
      cbn [String.eqb Ascii.eqb Bool.eqb]. rewrite Ht. cbn [negb].
      destruct (Liveness.decode_image_from_base64 w _) as [e|n] eqn:Ed;
        cbn [fst snd Step.failure Step.success Api.status_of].
      * split; [|right; now left].
        split; [discriminate|].
        intros [_ [_ [n [Hn _]]]]. discriminate Hn.
      * unfold Individual.verify_person, Individual.get_duration,
          Individual.get_display, Individual.budget.
        cbn [Individual.kw_duration Individual.kw_display
             Liveness.config Liveness.person_verification_duration].
        destruct (Step.success (PersonVerification.verify_person _ _ _ _))
          eqn:Es; cbn [Api.status_of].
        -- split; [|now left]. split; [|reflexivity].
           intros _. repeat split. exists n. now split.
        -- split; [|right; now left]. split; [discriminate|].
           intros [_ [_ [n' [Hn Hs]]]]. injection Hn as <-. congruence.
    + split; [|right; now left]. split; [discriminate|].
      intros [_ [Ho _]]. discriminate Ho.
    + split; [|right; now left]. split; [discriminate|].
      intros [_ [Ho _]]. discriminate Ho.
  - split; [|right; now left]. split; [discriminate|].
    intros [Hf _]. discriminate Hf.
Qed.

(** ** The motion score of the stand-alone check *)

Lemma Qsum_nonneg (l : list Q) : Forall (fun x => 0 <= x) l -> 0 <= Qsum l.
Proof.
  induction 1 as [|x l Hx _ IH]; cbn [Qsum fold_right]; [lra|].
  unfold Qsum in IH. lra.
Qed.

Lemma np_mean_nonneg (l : list Q) :
  Forall (fun x => 0 <= x) l -> 0 <= np_mean l.
Proof.
  intro H. unfold np_mean, Qdiv.
  apply Qmult_le_0_compat; [now apply Qsum_nonneg|].
  apply Qinv_le_0_compat, Qlen_nonneg.
Qed.

Lemma np_var_nonneg (l : list Q) : 0 <= np_var l.
Proof.
  unfold np_var. apply np_mean_nonneg.
  apply Forall_forall. intros x Hx. apply in_map_iff in Hx as [y [<- _]].
  set (z := y - np_mean l).
  destruct (Qlt_le_dec z 0) as [Hn|Hp].
  - setoid_replace (z * z) with ((- z) * (- z)) by ring.
    apply Qmult_le_0_compat; lra.
  - apply Qmult_le_0_compat; lra.
Qed.

(** The invariant of the histories: the variances recorded are not
    negative, and the pose history is as long as the frames seen, up to
    its capacity. *)
Lemma motion_conf_step (h : Legacy.History) (y p r t : Q) (k : nat) :
  0 < t ->
  Forall (fun v => 0 <= v) (Legacy.motion_history h) ->
  List.length (Legacy.yaw_hist h) = Nat.min k Legacy.MAX_TRACK_HISTORY ->
  let out := Legacy.motion_conf h y p r t in
  0 <= fst out <= 1
  /\ ((k < 2)%nat -> fst out == 0)
  /\ Forall (fun v => 0 <= v) (Legacy.motion_history (snd out))
  /\ List.length (Legacy.yaw_hist (snd out))
     = Nat.min (S k) Legacy.MAX_TRACK_HISTORY.
Proof.
  intros Ht Hm Hl. unfold Legacy.motion_conf.
  set (yh := Midas.deque_append Legacy.MAX_TRACK_HISTORY (Legacy.yaw_hist h) y).
  set (ph := Midas.deque_append Legacy.MAX_TRACK_HISTORY
               (Legacy.pitch_hist h) p).
  set (rh := Midas.deque_append Legacy.MAX_TRACK_HISTORY (Legacy.roll_hist h) r).
  assert (Hyh : List.length yh = Nat.min (S k) Legacy.MAX_TRACK_HISTORY).
  { unfold yh. rewrite deque_append_length, Hl.
    unfold Legacy.MAX_TRACK_HISTORY. lia. }
  set (v := np_var (Legacy.last_n Legacy.MOTION_WINDOW_SIZE yh)
            + np_var (Legacy.last_n Legacy.MOTION_WINDOW_SIZE ph)
            + np_var (Legacy.last_n Legacy.MOTION_WINDOW_SIZE rh)).
  assert (Hv : 0 <= v).
  { unfold v.
    pose proof (np_var_nonneg (Legacy.last_n Legacy.MOTION_WINDOW_SIZE yh)).
    pose proof (np_var_nonneg (Legacy.last_n Legacy.MOTION_WINDOW_SIZE ph)).
    pose proof (np_var_nonneg (Legacy.last_n Legacy.MOTION_WINDOW_SIZE rh)).
    lra. }
  set (mh := Midas.deque_append Legacy.MOTION_WINDOW_SIZE
               (Legacy.motion_history h) v).
  assert (Hmh : Forall (fun x => 0 <= x) mh).
  { unfold mh, Midas.deque_append. apply Forall_skipn_keeps.
    apply Forall_snoc; assumption. }
  assert (Ht2 : 0 < t * 2) by lra.
  destruct (3 <=? List.length yh)%nat eqn:E3.
  - assert (Hvar : 0 <= (if (3 <=? List.length mh)%nat then np_mean mh else v)).
    { destruct (3 <=? List.length mh)%nat; [now apply np_mean_nonneg|exact Hv]. }
    cbn [fst snd Legacy.motion_history Legacy.yaw_hist].
    split; [|split; [|split]].
    + set (x := (if (3 <=? List.length mh)%nat then np_mean mh else v)
                / (t * 2)).
      assert (Hx : 0 <= x) by (now apply Qdiv_nonneg).
      assert (H1 : 0 <= 1.0) by lra.
      pose proof (py_min_range 1.0 x H1 Hx) as Hrange. lra.
    + intro Hk. apply Nat.leb_le in E3. rewrite Hyh in E3.
      unfold Legacy.MAX_TRACK_HISTORY in E3. lia.
    + exact Hmh.
    + exact Hyh.
  - cbn [fst snd Legacy.motion_history Legacy.yaw_hist].
    assert (Hz : py_min 1.0 (0.0 / (t * 2)) == 0).
    { rewrite (py_min_compat 1.0 1.0 (0.0 / (t * 2)) 0);
        [reflexivity | reflexivity | apply zero_div]. }
    split; [|split; [|split]].
    + rewrite Hz. lra.
    + intros _. exact Hz.
    + exact Hm.
    + exact Hyh.
Qed.

Lemma legacy_scores_inv (frames : list (Q * Q * Q * Q)) :
  forall h k,
    Forall (fun f => 0 < snd f) frames ->
    Forall (fun v => 0 <= v) (Legacy.motion_history h) ->
    List.length (Legacy.yaw_hist h) = Nat.min k Legacy.MAX_TRACK_HISTORY ->
    let scores := legacy_motion_scores h frames in
    List.length scores = List.length frames
    /\ Forall (fun c => 0 <= c <= 1) scores
    /\ Forall (fun c => c == 0) (firstn (2 - k) scores).
Proof.
  induction frames as [|[[[y p] r] t] tl IH]; intros h k Hf Hm Hl.
  - cbn. rewrite firstn_nil. repeat split; constructor.
  - inversion Hf as [|f fs Ht Htl]; subst. cbn [snd] in Ht.
    cbn [legacy_motion_scores].
    destruct (motion_conf_step h y p r t k Ht Hm Hl) as [Hr [Hz [Hm' Hl']]].
    destruct (Legacy.motion_conf h y p r t) as [c h'].
    cbn [fst snd] in *.
    destruct (IH h' (S k) Htl Hm' Hl') as [Hlen [Hrange Hzero]].
    cbn [List.length]. split; [now rewrite Hlen|].
    split; [constructor; assumption|].
    destruct k as [|[|k]].
    + cbn [Nat.sub firstn]. constructor; [apply Hz; lia|exact Hzero].
    + cbn [Nat.sub firstn]. constructor; [apply Hz; lia|exact Hzero].
    + cbn [Nat.sub firstn]. constructor.
Qed.

(** X23 (legacy/midas_liveness.py, [liveness_decision], the motion part):
    over any sequence of frames taken from the start, with positive
    motion thresholds, every motion score of the stand-alone check lies
    between 0 and 1, and the scores of the first two frames are 0: no
    pose variance is taken before three poses are recorded. *)
Theorem legacy_motion_score_starts_at_zero :
  forall frames : list (Q * Q * Q * Q),
    Forall (fun f => 0 < snd f) frames ->
    let scores := legacy_motion_scores Legacy.init frames in
    List.length scores = List.length frames
    /\ Forall (fun c => 0 <= c <= 1) scores
    /\ Forall (fun c => c == 0) (firstn 2 scores).
Proof.
  intros frames Hf.
  exact (legacy_scores_inv frames Legacy.init 0%nat Hf (Forall_nil _) eq_refl).
Qed.

Lemma turning_head_thresholds : Forall (fun f => 0 < snd f) turning_head.
Proof.
  repeat constructor.
Defined.

Lemma turning_head_scores :
  (List.length (legacy_motion_scores Legacy.init turning_head)
   = List.length turning_head
   /\ Forall (fun c => 0 <= c <= 1)
             (legacy_motion_scores Legacy.init turning_head)
   /\ Forall (fun c => c == 0)
             (firstn 2 (legacy_motion_scores Legacy.init turning_head)))
  /\ nth 2 (legacy_motion_scores Legacy.init turning_head) 0 == 1.
Proof.
  split.
  - exact (legacy_motion_score_starts_at_zero turning_head
             turning_head_thresholds).
  - vm_compute. reflexivity.
Defined.
